(** * ynca: a shallow embedding of the receiver control client

    The development follows the layout of the Python package:
    - [Py]            the Python builtins the code relies on (round, float,
                      str of a number, insertion-ordered dict);
    - [Connection]    the protocol session (connection.py);
    - [Helpers]       number_to_string_with_stepsize (helpers.py);
    - [Subunit]       the subunit base and the function descriptors
                      (subunit.py);
    - [FunctionMixins] function_mixins.py and the media playback subunit;
    - [Zone]          zone.py;
    - [Subunits_zone] subunits/zone.py;
    - [Receiver]      receiver.py.

    Python floats are modelled by the rationals they denote (every finite
    float is a rational; NaN and the infinities are outside the model).
    Strings are byte strings; protocol text is ASCII. *)

From Stdlib Require Import ZArith QArith Qround Qabs Lia Lqa List String Ascii Bool DecimalString.
From stdpp Require Import gmap strings.
Import ListNotations.

Open Scope string_scope.
Open Scope Z_scope.

(* ===================================================================== *)
(** * Python builtins *)
(* ===================================================================== *)

Module Py.

(** ** Exceptions and the state-and-exception monad *)

Inductive Exception :=
| ValueError (msg : string)
| AttributeError (msg : string)
| YncaInitializationFailedException (msg : string)
| UnsupportedOperationError (msg : string)
| ConversionError (msg : string).

Inductive Outcome (A : Type) :=
| Return (a : A)
| Raise (e : Exception).
Arguments Return {A} a.
Arguments Raise {A} e.

(** A method that runs against a mutable state [S]: it either returns or
    raises, and in both cases leaves a state behind. *)
Definition M (S A : Type) : Type := S -> Outcome A * S.

Definition ret {S A} (a : A) : M S A := fun s => (Return a, s).
Definition raise {S A} (e : Exception) : M S A := fun s => (Raise e, s).
Definition bind {S A B} (m : M S A) (k : A -> M S B) : M S B :=
  fun s => match m s with
           | (Return a, s') => k a s'
           | (Raise e, s') => (Raise e, s')
           end.
Definition read {S A} (f : S -> A) : M S A := fun s => (Return (f s), s).
Definition modify {S} (f : S -> S) : M S unit := fun s => (Return tt, f s).

(** [for x in xs: body x] *)
Fixpoint for_each {S A} (xs : list A) (body : A -> M S unit) : M S unit :=
  match xs with
  | [] => ret tt
  | x :: xs' => bind (body x) (fun _ => for_each xs' body)
  end.

(** ** round: round half to even *)

Definition round (q : Q) : Z :=
  let f := Qfloor q in
  match Qcompare (q - inject_Z f) (1 # 2) with
  | Lt => f
  | Gt => f + 1
  | Eq => if Z.even f then f else f + 1
  end.

(** ** Decimal text *)

Definition is_digit (c : ascii) : bool :=
  let n := nat_of_ascii c in (48 <=? n)%nat && (n <=? 57)%nat.

Definition digit_value (c : ascii) : Z := Z.of_nat (nat_of_ascii c) - 48.

(** The longest prefix of decimal digits, and what follows it. *)
Fixpoint take_digits (s : string) : string * string :=
  match s with
  | String c s' =>
      if is_digit c
      then let (ds, rest) := take_digits s' in (String c ds, rest)
      else ("", s)
  | EmptyString => ("", "")
  end.

Fixpoint digits_value (acc : Z) (ds : string) : Z :=
  match ds with
  | String c ds' => digits_value (10 * acc + digit_value c) ds'
  | EmptyString => acc
  end.

(** str(n) for an int. *)
Definition str_int (z : Z) : string := NilZero.string_of_int (Z.to_int z).

(** float(text) on plain decimal text: an optional sign, digits, and an
    optional fraction ([-80.5], [16], [.5], [5.]). [None] stands for the
    ValueError float raises on text that is no number. Exponents, inf and
    nan, which float also accepts, are outside the model: the receiver
    reports volumes as plain decimals. *)
Definition float (text : string) : option Q :=
  let (negative, body) :=
    match text with
    | String "-" s => (true, s)
    | String "+" s => (false, s)
    | _ => (false, text)
    end in
  let (ip, rest) := take_digits body in
  let (fp, rest') :=
    match rest with
    | String "." s => take_digits s
    | _ => ("", rest)
    end in
  match rest, rest' with
  | String "." _, EmptyString | EmptyString, EmptyString =>
      if ((String.length ip =? 0) && (String.length fp =? 0))%nat then None
      else
        let scale := 10 ^ Z.of_nat (String.length fp) in
        let n := digits_value (digits_value 0 ip) fp in
        Some (Qred (Qmake (if negative then - n else n) (Z.to_pos scale)))
  | _, _ => None
  end.

(** ** Numbers as Python passes them around: an int or a float *)

Inductive number :=
| Int (z : Z)
| Float (q : Q).

Definition to_Q (n : number) : Q :=
  match n with
  | Int z => inject_Z z
  | Float q => q
  end.

(** [a == b] on numbers compares values, whatever the types. *)
Definition eqb (a b : number) : bool := Qeq_bool (to_Q a) (to_Q b).

(** [x in xs] on a list. *)
Definition contains (x : number) (xs : list number) : bool :=
  existsb (eqb x) xs.

(** The digits of a fraction in [0, 1), most significant first, up to
    [fuel] of them; trailing zeros are not produced. *)
Fixpoint fraction_digits (fuel : nat) (fr : Q) : string :=
  match fuel with
  | O => ""
  | S fuel' =>
      if Qeq_bool fr 0 then ""
      else
        let d := Qfloor (fr * 10) in
        str_int d ++ fraction_digits fuel' (fr * 10 - inject_Z d)
  end.

(** str(x) of a float: the integer part, a point, and the fraction, [0]
    when there is none ([1.0], [0.5], [2.25]). This is Python's output
    for floats with a short decimal expansion; the shortest-round-trip
    rule Python applies to the others is outside the model. *)
Definition str_float (q : Q) : string :=
  let a := Qabs q in
  let ip := Qfloor a in
  let fr := fraction_digits 17 (a - inject_Z ip) in
  (if Qlt_le_dec q 0 then "-" else "")
    ++ str_int ip ++ "." ++ (if (String.length fr =? 0)%nat then "0" else fr).

(** What ["{}".format(x)] puts in place of the braces. *)
Definition format (n : number) : string :=
  match n with
  | Int z => str_int z
  | Float q => str_float q
  end.

(** ** dict: insertion-ordered, one entry per key *)

Module Dict.
Definition t (V : Type) : Type := list (string * V).

Definition empty {V} : t V := [].

Fixpoint get {V} (k : string) (d : t V) : option V :=
  match d with
  | [] => None
  | (k', v) :: d' => if String.eqb k k' then Some v else get k d'
  end.

(** [d[k] = v]: an existing key keeps its place, a new one goes last. *)
Fixpoint set {V} (k : string) (v : V) (d : t V) : t V :=
  match d with
  | [] => [(k, v)]
  | (k', v') :: d' =>
      if String.eqb k k' then (k', v) :: d' else (k', v') :: set k v d'
  end.

Definition items {V} (d : t V) : list (string * V) := d.
Definition keys {V} (d : t V) : list string := map fst d.
End Dict.

End Py.

Notation "'let!' x ':=' m 'in' k" := (Py.bind m (fun x => k))
  (at level 10, x name, m at level 100, k at level 200).
Notation "m ';;;' k" := (Py.bind m (fun _ => k))
  (at level 100, k at level 200, right associativity).

(* ===================================================================== *)
(** * connection.py: the protocol session *)
(* ===================================================================== *)

Module Connection.

(** Modelled from the spec: connection.py is missing. The spec gives the
    session a count of commands sent, commands [{subunit_id, function,
    value}] where no value encodes a GET, events [{status, subunit_id,
    function, raw_value}] and callbacks that are registered and
    unregistered. [get] and [put] transmit one command each and do not wait
    for a reply. *)
Inductive YncaProtocolStatus := OK | UNDEFINED | RESTRICTED | ERROR | OTHER.

Record Command := {
  cmd_subunit : string;
  cmd_function : string;
  cmd_value : option string
}.

Record ProtocolEvent := {
  ev_status : YncaProtocolStatus;
  ev_subunit : string;
  ev_function : string;
  ev_value : string
}.

Inductive Callback :=
| ReceiverCallback
| SubunitCallback (subunit_id : string).

Definition Callback_eqb (a b : Callback) : bool :=
  match a, b with
  | ReceiverCallback, ReceiverCallback => true
  | SubunitCallback x, SubunitCallback y => String.eqb x y
  | _, _ => false
  end.

Record YncaConnection := {
  num_commands_sent : Z;
  sent : list Command;
  message_callbacks : list Callback
}.

Definition create_from_serial_url (serial_url : string) : YncaConnection :=
  {| num_commands_sent := 0; sent := []; message_callbacks := [] |}.

Definition transmit (cmd : Command) (c : YncaConnection) : YncaConnection :=
  {| num_commands_sent := num_commands_sent c + 1;
     sent := sent c ++ [cmd];
     message_callbacks := message_callbacks c |}.

Definition get (subunit function_ : string) : YncaConnection -> YncaConnection :=
  transmit {| cmd_subunit := subunit; cmd_function := function_; cmd_value := None |}.

Definition put (subunit function_ value : string) : YncaConnection -> YncaConnection :=
  transmit {| cmd_subunit := subunit; cmd_function := function_; cmd_value := Some value |}.

Definition register_message_callback (cb : Callback) (c : YncaConnection) : YncaConnection :=
  {| num_commands_sent := num_commands_sent c;
     sent := sent c;
     message_callbacks :=
       if existsb (Callback_eqb cb) (message_callbacks c)
       then message_callbacks c else message_callbacks c ++ [cb] |}.

Definition unregister_message_callback (cb : Callback) (c : YncaConnection) : YncaConnection :=
  {| num_commands_sent := num_commands_sent c;
     sent := sent c;
     message_callbacks := List.filter (fun cb' => negb (Callback_eqb cb cb')) (message_callbacks c) |}.

Definition is_OK (st : YncaProtocolStatus) : bool :=
  match st with OK => true | _ => false end.

End Connection.

(* ===================================================================== *)
(** * constants.py *)
(* ===================================================================== *)

Module Constants.

(** Modelled from the spec: constants.py is missing. The tests name the
    system subunit [SYS = "SYS"], and use the members [Repeat.SINGLE],
    [Repeat.ALL], [PlaybackInfo.PAUSE] and [Playback.PLAY] with the protocol
    values below; the other members complete the enums. The catalog of
    subunit ids and the list of zones stay parameters of the receiver. *)
Definition SYS : string := "SYS".

Inductive Repeat := Repeat_OFF | Repeat_SINGLE | Repeat_ALL.
Inductive Playback := Playback_STOP | Playback_PAUSE | Playback_PLAY.
Inductive PlaybackInfo := PlaybackInfo_STOP | PlaybackInfo_PAUSE | PlaybackInfo_PLAY.

Definition Repeat_value (r : Repeat) : string :=
  match r with
  | Repeat_OFF => "Off" | Repeat_SINGLE => "Single" | Repeat_ALL => "All"
  end.

Definition Playback_value (p : Playback) : string :=
  match p with
  | Playback_STOP => "Stop" | Playback_PAUSE => "Pause" | Playback_PLAY => "Play"
  end.

Definition PlaybackInfo_value (p : PlaybackInfo) : string :=
  match p with
  | PlaybackInfo_STOP => "Stop" | PlaybackInfo_PAUSE => "Pause"
  | PlaybackInfo_PLAY => "Play"
  end.

End Constants.

(* ===================================================================== *)
(** * helpers.py *)
(* ===================================================================== *)

Module Helpers.

(** The decimals of [fp / 10^decimals], most significant first; the
    recursion stops as soon as nothing but zeros is left, so no trailing
    zero is written. *)
Fixpoint fraction_text (decimals : nat) (fp : Z) : string :=
  match decimals with
  | O => ""
  | S d =>
      if fp =? 0 then ""
      else Py.str_int (fp / 10 ^ Z.of_nat d)
             ++ fraction_text d (fp mod 10 ^ Z.of_nat d)
  end.

(** A number with at most [decimals] decimals and no more text than it
    needs: no point and no decimals on a whole number. *)
Definition render_minimal (q : Q) (decimals : nat) : string :=
  let scaled := Py.round (q * inject_Z (10 ^ Z.of_nat decimals)) in
  let magnitude := Z.abs scaled in
  let ip := magnitude / 10 ^ Z.of_nat decimals in
  let fp := magnitude mod 10 ^ Z.of_nat decimals in
  (if scaled <? 0 then "-" else "")
    ++ Py.str_int ip
    ++ (if fp =? 0 then "" else "." ++ fraction_text decimals fp).

(** Modelled from the spec: helpers.py is missing. The float converter's
    [to_protocol] "rounds the number to the nearest multiple of a configured
    step size and renders with the minimal needed precision (a step size of
    0.5 renders whole values without a decimal point and half-values with
    one decimal digit)". The callers pass the value, the number of decimals
    and the step size. The number of steps is taken with Python's round. *)
Definition number_to_string_with_stepsize (value : Q) (decimals : nat) (stepsize : Q) : string :=
  let steps := Py.round (value / stepsize) in
  let stepped_value := (inject_Z steps * stepsize)%Q in
  render_minimal stepped_value decimals.

End Helpers.

(* ===================================================================== *)
(** * subunit.py: the subunit base and the function descriptors *)
(* ===================================================================== *)

Module Subunit.
Import Connection.

(** Modelled from the spec: subunit.py is missing. A descriptor binds a
    protocol function name to a typed attribute, with a converter, a
    GET/PUT capability and an optional initialization group. [GET] is what
    the declarations write as [CommandType.GET]; a declaration that gives no
    command type can GET and PUT. *)
Inductive CommandType := GET | PUT | GET_PUT.

Definition supports_put (ct : CommandType) : bool :=
  match ct with GET => false | PUT | GET_PUT => true end.

(** What the update callbacks of a subunit are told. *)
Record Update := {
  upd_subunit : string;
  upd_function : string;
  upd_status : YncaProtocolStatus;
  upd_value : string
}.

(** The state a subunit method runs against: the instance and the session
    it holds a reference to. *)
Definition World (T : Type) : Type := (T * YncaConnection)%type.

(** A subunit class: its id, the functions it binds by name (a binding
    decodes the protocol value and stores it on the instance, [None] when
    the value does not convert), and the two hooks subclasses override. *)
Class SubunitClass (T : Type) := {
  id : T -> string;
  binding : string -> option (string -> T -> option T);
  _subunit_message_received_without_handler :
    YncaProtocolStatus -> string -> string -> T -> bool * T;
  on_initialize : Py.M (World T) unit
}.

Section Base.
Context {T : Type} `{SubunitClass T}.

(** Modelled from the spec: "issues a PUT command through the owning
    subunit's session reference"; [_get] likewise. *)
Definition _put (function_ value : string) : Py.M (World T) unit :=
  Py.modify (fun w : World T => (fst w, put (id (fst w)) function_ value (snd w))).

Definition _get (function_ : string) : Py.M (World T) unit :=
  Py.modify (fun w : World T => (fst w, get (id (fst w)) function_ (snd w))).

(** Modelled from the spec: [initialize()] issues the GET commands of the
    class and returns without waiting for the replies. *)
Definition initialize : Py.M (World T) unit := on_initialize.

(** Modelled from the spec (4.3, event dispatch): an event for the
    subunit's own id is looked up by function name; when a binding is found
    the value is decoded and stored, only for status OK, and the update
    callbacks are notified; when none is found the event is offered to the
    fallback handler, and dropped if that declines. A value that does not
    convert is contained: nothing is stored. *)
Definition _protocol_message_received (ev : ProtocolEvent) (self : T) : T * option Update :=
  let note := {| upd_subunit := ev_subunit ev; upd_function := ev_function ev;
                 upd_status := ev_status ev; upd_value := ev_value ev |} in
  if negb (String.eqb (ev_subunit ev) (id self)) then (self, None)
  else
    match binding (ev_function ev) with
    | Some store =>
        if is_OK (ev_status ev) then
          match store (ev_value ev) self with
          | Some self' => (self', Some note)
          | None => (self, None)
          end
        else (self, Some note)
    | None =>
        let (updated, self') :=
          _subunit_message_received_without_handler
            (ev_status ev) (ev_function ev) (ev_value ev) self in
        (self', if updated then Some note else None)
    end.

(** The reader task dispatches the events in the order they arrive. *)
Definition dispatch_all (evs : list ProtocolEvent) (self : T) : T :=
  fold_left (fun s ev => fst (_protocol_message_received ev s)) evs self.

End Base.

(** ** Descriptor-declared subunits *)

Section Descriptors.
Context {V : Type}.

Record Converter := {
  to_str : V -> option string;
  to_value : string -> option V
}.

Record YncaFunction := {
  function_name : string;
  converter : Converter;
  command_type : CommandType;
  initialize_function_name : option string
}.

(** An instance of a class whose attributes are all descriptors: the
    values live on the instance, keyed by function name. *)
Record Instance := {
  inst_id : string;
  inst_values : gmap string V
}.

Definition find_function (functions : list YncaFunction) (name : string) : option YncaFunction :=
  find (fun f => String.eqb (function_name f) name) functions.

Definition store_value (f : YncaFunction) (raw : string) (self : Instance) : option Instance :=
  match to_value (converter f) raw with
  | Some v =>
      Some {| inst_id := inst_id self;
              inst_values := <[function_name f := v]> (inst_values self) |}
  | None => None
  end.

(** The get accessor: the cached value, [None] if never received. *)
Definition function_get (f : YncaFunction) (self : Instance) : option V :=
  inst_values self !! function_name f.

(** The set accessor: refused on a descriptor that cannot PUT, otherwise
    the value is converted and sent. The cached value is not touched. *)
Definition function_set (f : YncaFunction) (v : V) : Py.M (World Instance) unit :=
  if supports_put (command_type f) then
    match to_str (converter f) v with
    | Some text =>
        Py.modify (fun w : World Instance =>
                     (fst w, put (inst_id (fst w)) (function_name f) text (snd w)))
    | None => Py.raise (Py.ConversionError "value does not convert")
    end
  else Py.raise (Py.UnsupportedOperationError "function does not support PUT").

(** One GET per distinct initialization name, in declaration order. *)
Fixpoint initialize_names (functions : list YncaFunction) (seen : list string) : list string :=
  match functions with
  | [] => []
  | f :: fs =>
      let name := default (function_name f) (initialize_function_name f) in
      if existsb (String.eqb name) seen then initialize_names fs seen
      else name :: initialize_names fs (name :: seen)
  end.

Definition descriptor_class (functions : list YncaFunction) : SubunitClass Instance := {|
  id := inst_id;
  binding := fun name =>
    match find_function functions name with
    | Some f => Some (store_value f)
    | None => None
    end;
  _subunit_message_received_without_handler := fun _ _ _ self => (false, self);
  on_initialize :=
    Py.for_each (initialize_names functions [])
      (fun name => Py.modify (fun w : World Instance =>
                                (fst w, get (inst_id (fst w)) name (snd w))))
|}.

End Descriptors.
Arguments Converter V : clear implicits.
Arguments YncaFunction V : clear implicits.
Arguments Instance V : clear implicits.

End Subunit.

(* ===================================================================== *)
(** * function_mixins.py *)
(* ===================================================================== *)

Module FunctionMixins.
Import Connection Constants Subunit.

Inductive Shuffle := Shuffle_ON | Shuffle_OFF.

Definition Shuffle_value (s : Shuffle) : string :=
  match s with Shuffle_ON => "On" | Shuffle_OFF => "Off" end.

Inductive Pwr := Pwr_ON | Pwr_STANDBY.

Definition Pwr_value (p : Pwr) : string :=
  match p with Pwr_ON => "On" | Pwr_STANDBY => "Standby" end.

(** The typed values the mixin attributes hold. *)
Inductive Value :=
| VStr (s : string)
| VPlaybackInfo (p : PlaybackInfo)
| VRepeat (r : Repeat)
| VShuffle (s : Shuffle).

(** Modelled from the spec: the enum converter is a strict membership
    check against the enum's values; the string converter is the identity
    when no length limits are configured. *)
Definition EnumConverter {E : Type} (members : list E) (value_of : E -> string)
    (inj : E -> Value) (proj : Value -> option E) : Converter Value :=
  {| to_str := fun v => option_map value_of (proj v);
     to_value := fun raw =>
       option_map inj (find (fun e => String.eqb (value_of e) raw) members) |}.

Definition StrConverter : Converter Value :=
  {| to_str := fun v => match v with VStr s => Some s | _ => None end;
     to_value := fun raw => Some (VStr raw) |}.

Definition YncaFunctionEnum {E : Type} (name : string) (members : list E)
    (value_of : E -> string) (inj : E -> Value) (proj : Value -> option E)
    (command_type : CommandType) : YncaFunction Value :=
  {| function_name := name;
     converter := EnumConverter members value_of inj proj;
     command_type := command_type;
     initialize_function_name := None |}.

Definition YncaFunctionStr (name : string) (command_type : CommandType)
    (initialize_function_name : option string) : YncaFunction Value :=
  {| function_name := name;
     converter := StrConverter;
     command_type := command_type;
     initialize_function_name := initialize_function_name |}.

(** PlaybackInfoFunctionMixin *)
Definition playbackinfo : YncaFunction Value :=
  YncaFunctionEnum "PLAYBACKINFO"
    [PlaybackInfo_STOP; PlaybackInfo_PAUSE; PlaybackInfo_PLAY] PlaybackInfo_value
    VPlaybackInfo (fun v => match v with VPlaybackInfo p => Some p | _ => None end)
    GET.

(** ArtistFunctionMixin, AlbumFunctionMixin, SongFunctionMixin *)
Definition artist : YncaFunction Value := YncaFunctionStr "ARTIST" GET (Some "METAINFO").
Definition album : YncaFunction Value := YncaFunctionStr "ALBUM" GET (Some "METAINFO").
Definition song : YncaFunction Value := YncaFunctionStr "SONG" GET (Some "METAINFO").

(** StationFunctionMixin *)
Definition station : YncaFunction Value := YncaFunctionStr "STATION" GET None.

(** RepeatFunctionMixin *)
Definition repeat : YncaFunction Value :=
  YncaFunctionEnum "REPEAT" [Repeat_OFF; Repeat_SINGLE; Repeat_ALL] Repeat_value
    VRepeat (fun v => match v with VRepeat r => Some r | _ => None end)
    GET_PUT.

(** ShuffleFunctionMixin *)
Definition shuffle : YncaFunction Value :=
  YncaFunctionEnum "SHUFFLE" [Shuffle_ON; Shuffle_OFF] Shuffle_value
    VShuffle (fun v => match v with VShuffle s => Some s | _ => None end)
    GET_PUT.

(** Every descriptor the mixins declare. *)
Definition mixin_functions : list (YncaFunction Value) :=
  [playbackinfo; artist; album; song; station; repeat; shuffle].

(** Modelled from the spec: mediaplayback_subunits.py is missing. The
    tests read [repeat], [shuffle], [album], [artist], [song] and
    [playbackinfo] from a media playback subunit and call [playback] on it,
    so the base class mixes in these. *)
Definition MediaPlaybackSubunitBase_functions : list (YncaFunction Value) :=
  [playbackinfo; repeat; shuffle; artist; album; song].

#[global] Instance MediaPlaybackSubunitBase : SubunitClass (Instance Value) :=
  descriptor_class MediaPlaybackSubunitBase_functions.

Definition new (subunit_id : string) : Instance Value :=
  {| inst_id := subunit_id; inst_values := ∅ |}.

(** PlaybackFunctionMixin.playback: the enum member goes out as its value. *)
Definition playback (parameter : Playback) : Py.M (World (Instance Value)) unit :=
  _put "PLAYBACK" (Playback_value parameter).

End FunctionMixins.

(* ===================================================================== *)
(** * zone.py *)
(* ===================================================================== *)

Module Zone.
Import Connection Subunit.

Record Zone := {
  zone_id : string;
  _max_volume : Q;
  _volume : option Q;
  _scenes : gmap string string;
  _attr_inp : option string;
  _attr_pwr : option string;
  _attr_mute : option string;
  _attr_soundprg : option string;
  _attr_straight : option string;
  _attr_zonename : option string
}.

Definition _reset_internal_state (self : Zone) : Zone :=
  {| zone_id := zone_id self;
     _max_volume := 16.5;
     _volume := None;
     _scenes := ∅;
     _attr_inp := None;
     _attr_pwr := None;
     _attr_mute := None;
     _attr_soundprg := None;
     _attr_straight := None;
     _attr_zonename := None |}.

(** [Zone(subunit_id, connection)]; the connection is the session the
    world pairs the instance with. *)
Definition new (subunit_id : string) : Zone :=
  _reset_internal_state
    {| zone_id := subunit_id; _max_volume := 16.5; _volume := None; _scenes := ∅;
       _attr_inp := None; _attr_pwr := None; _attr_mute := None;
       _attr_soundprg := None; _attr_straight := None; _attr_zonename := None |}.

(** What is left of [s] after [prefix], when [s] starts with it. *)
Fixpoint strip_prefix (prefix s : string) : option string :=
  match prefix, s with
  | EmptyString, _ => Some s
  | String a prefix', String b s' =>
      if Ascii.eqb a b then strip_prefix prefix' s' else None
  | String _ _, EmptyString => None
  end.

(** [re.match(r"SCENE(\d+)NAME", function_)]: the match is anchored at the
    start of the name only. [\d+] takes the longest run of digits; giving
    digits back cannot help, the next character would be a digit where [N]
    is required. The result is group 1. *)
Definition match_scene_name (function_ : string) : option string :=
  match strip_prefix "SCENE" function_ with
  | Some rest =>
      let (digits, rest') := Py.take_digits rest in
      if (String.length digits =? 0)%nat then None
      else match strip_prefix "NAME" rest' with
           | Some _ => Some digits
           | None => None
           end
  | None => None
  end.

Definition set_scenes (scenes : gmap string string) (self : Zone) : Zone :=
  {| zone_id := zone_id self;
     _max_volume := _max_volume self;
     _volume := _volume self;
     _scenes := scenes;
     _attr_inp := _attr_inp self;
     _attr_pwr := _attr_pwr self;
     _attr_mute := _attr_mute self;
     _attr_soundprg := _attr_soundprg self;
     _attr_straight := _attr_straight self;
     _attr_zonename := _attr_zonename self |}.

Definition zone_subunit_message_received_without_handler
    (status : YncaProtocolStatus) (function_ value : string) (self : Zone) : bool * Zone :=
  match match_scene_name function_ with
  | Some scene_id => (true, set_scenes (<[scene_id := value]> (_scenes self)) self)
  | None => (false, self)
  end.

Definition _handle_vol (value : string) (self : Zone) : option Zone :=
  match Py.float value with
  | Some v =>
      Some {| zone_id := zone_id self; _max_volume := _max_volume self;
              _volume := Some v; _scenes := _scenes self;
              _attr_inp := _attr_inp self; _attr_pwr := _attr_pwr self;
              _attr_mute := _attr_mute self; _attr_soundprg := _attr_soundprg self;
              _attr_straight := _attr_straight self;
              _attr_zonename := _attr_zonename self |}
  | None => None
  end.

Definition _handle_maxvol (value : string) (self : Zone) : option Zone :=
  match Py.float value with
  | Some v =>
      Some {| zone_id := zone_id self; _max_volume := v;
              _volume := _volume self; _scenes := _scenes self;
              _attr_inp := _attr_inp self; _attr_pwr := _attr_pwr self;
              _attr_mute := _attr_mute self; _attr_soundprg := _attr_soundprg self;
              _attr_straight := _attr_straight self;
              _attr_zonename := _attr_zonename self |}
  | None => None
  end.

(** The [_attr_<function>] attributes hold the protocol text as it came. *)
Definition set_attr (function_ value : string) (self : Zone) : Zone :=
  let pick name old := if String.eqb function_ name then Some value else old in
  {| zone_id := zone_id self; _max_volume := _max_volume self;
     _volume := _volume self; _scenes := _scenes self;
     _attr_inp := pick "INP" (_attr_inp self);
     _attr_pwr := pick "PWR" (_attr_pwr self);
     _attr_mute := pick "MUTE" (_attr_mute self);
     _attr_soundprg := pick "SOUNDPRG" (_attr_soundprg self);
     _attr_straight := pick "STRAIGHT" (_attr_straight self);
     _attr_zonename := pick "ZONENAME" (_attr_zonename self) |}.

Definition attr_functions : list string :=
  ["INP"; "PWR"; "MUTE"; "SOUNDPRG"; "STRAIGHT"; "ZONENAME"].

(** Modelled from the spec: the lookup of a function by name is in the
    missing subunit.py. The functions this class binds are read off its
    declarations: a [_handle_<function>] method or an [_attr_<function>]
    attribute. *)
Definition zone_binding (function_ : string) : option (string -> Zone -> option Zone) :=
  if String.eqb function_ "VOL" then Some _handle_vol
  else if String.eqb function_ "MAXVOL" then Some _handle_maxvol
  else if existsb (String.eqb function_) attr_functions
       then Some (fun value self => Some (set_attr function_ value self))
  else None.

Definition zone_on_initialize : Py.M (World Zone) unit :=
  Py.modify (fun w : World Zone => (_reset_internal_state (fst w), snd w));;;
  Py.modify (fun w : World Zone => (fst w, get (zone_id (fst w)) "BASIC" (snd w)));;;
  Py.modify (fun w : World Zone => (fst w, get (zone_id (fst w)) "MAXVOL" (snd w)));;;
  Py.modify (fun w : World Zone => (fst w, get (zone_id (fst w)) "SCENENAME" (snd w)));;;
  Py.modify (fun w : World Zone => (fst w, get (zone_id (fst w)) "ZONENAME" (snd w))).

#[global] Instance Zone_class : SubunitClass Zone := {|
  id := zone_id;
  binding := zone_binding;
  _subunit_message_received_without_handler :=
    zone_subunit_message_received_without_handler;
  on_initialize := zone_on_initialize
|}.

Definition max_volume (self : Zone) : Q := _max_volume self.
Definition min_volume (self : Zone) : Q := -80.5.
Definition volume (self : Zone) : option Q := _volume self.
Definition scenes (self : Zone) : gmap string string := _scenes self.

(** The [volume] setter. *)
Definition volume_set (value : Q) : Py.M (World Zone) unit :=
  fun w =>
    let self := fst w in
    if Qle_bool (min_volume self) value && Qle_bool value (_max_volume self)
    then _put "VOL" (Helpers.number_to_string_with_stepsize value 1 0.5) w
    else Py.raise
           (Py.ValueError "Volume out of range, must be between min_volume and max_volume") w.

Definition supported_steps : list Py.number := [Py.Int 1; Py.Int 2; Py.Int 5].

Definition volume_up (step_size : Py.number) : Py.M (World Zone) unit :=
  let value :=
    if Py.contains step_size supported_steps
    then "Up " ++ Py.format step_size ++ " dB"
    else "Up" in
  _put "VOL" value.

Definition volume_down (step_size : Py.number) : Py.M (World Zone) unit :=
  let value :=
    if Py.contains step_size supported_steps
    then "Down " ++ Py.format step_size ++ " dB"
    else "Down" in
  _put "VOL" value.

(** The default argument of [volume_up] and [volume_down]. *)
Definition default_step_size : Py.number := Py.Float 0.5.

(** ** The other attributes and commands of a zone *)

(** [name] *)
Definition name (self : Zone) : option string := _attr_zonename self.


(** [on], the setter. *)
Definition on_set (value : bool) : Py.M (World Zone) unit :=
  _put "PWR" (if value then "On" else "Standby").

(** [input], getter and setter. *)
Definition input (self : Zone) : option string := _attr_inp self.

Definition input_set (value : string) : Py.M (World Zone) unit :=
  _put "INP" value.

(** [dsp_sound_program], getter and setter; [DSP_SOUND_PROGRAMS] is a list
    of constants.py, a parameter here. *)
Definition dsp_sound_program (self : Zone) : option string := _attr_soundprg self.

Definition dsp_sound_program_set (DSP_SOUND_PROGRAMS : list string) (value : string) : Py.M (World Zone) unit :=
  if existsb (String.eqb value) DSP_SOUND_PROGRAMS
  then _put "SOUNDPRG" value
  else Py.raise (Py.ValueError "Soundprogram not in DspSoundPrograms").


Definition straight_set (value : bool) : Py.M (World Zone) unit :=
  _put "STRAIGHT" (if value then "On" else "Off").

(** [activate_scene] *)
Definition activate_scene (scene_id : string) : Py.M (World Zone) unit :=
  fun w =>
    match _scenes (fst w) !! scene_id with
    | None => Py.raise (Py.ValueError "Invalid scene ID") w
    | Some _ => _put "SCENE" ("Scene " ++ scene_id) w
    end.

(** [playback], mixed in from PlaybackFunctionMixin. *)
Definition playback (parameter : Constants.Playback) : Py.M (World Zone) unit :=
  _put "PLAYBACK" (Constants.Playback_value parameter).

End Zone.

(* ===================================================================== *)
(** * subunits/zone.py *)
(* ===================================================================== *)

Module Subunits_zone.
Import Connection Subunit.

(** The typed values of the functions modelled here. The enum-typed
    functions of [ZoneBase] take their enums from function_enums.py, which
    is missing; they play no part in what is proved and are left out. *)
Inductive Value :=
| VFloat (q : Q)
| VStr (s : string).

(** Modelled from the spec: converters.py and function.py are missing. The
    float converter parses decimal text and writes a number with its
    [to_str]; the string converter enforces its length limits when
    writing. *)
Definition FloatConverter (to_str : Q -> string) : Converter Value :=
  {| Subunit.to_str := fun v => match v with VFloat q => Some (to_str q) | _ => None end;
     to_value := fun raw => option_map VFloat (Py.float raw) |}.

Definition StrConverter (min_len max_len : option nat) : Converter Value :=
  {| Subunit.to_str := fun v =>
       match v with
       | VStr s =>
           let n := String.length s in
           if (match min_len with Some lo => (lo <=? n)%nat | None => true end)
              && (match max_len with Some hi => (n <=? hi)%nat | None => true end)
           then Some s else None
       | _ => None
       end;
     to_value := fun raw => Some (VStr raw) |}.

Definition FloatFunction (name : string) (command_type : CommandType)
    (converter : Converter Value) (init : option string) : YncaFunction Value :=
  {| function_name := name; converter := converter;
     command_type := command_type; initialize_function_name := init |}.

Definition StrFunction (name : string) (command_type : CommandType)
    (converter : Converter Value) (init : option string) : YncaFunction Value :=
  {| function_name := name; converter := converter;
     command_type := command_type; initialize_function_name := init |}.

Definition maxvol : YncaFunction Value :=
  FloatFunction "MAXVOL" GET (FloatConverter Py.str_float) None.

Definition scenename (n : Z) : YncaFunction Value :=
  StrFunction ("SCENE" ++ Py.str_int n ++ "NAME") GET (StrConverter None None)
    (Some "SCENENAME").

Definition vol : YncaFunction Value :=
  FloatFunction "VOL" GET_PUT
    (FloatConverter (fun v => Helpers.number_to_string_with_stepsize v 1 0.5))
    (Some "BASIC").

Definition zonename : YncaFunction Value :=
  StrFunction "ZONENAME" GET_PUT (StrConverter (Some 0%nat) (Some 9%nat)) None.

Definition ZoneBase_functions : list (YncaFunction Value) :=
  [maxvol] ++ map scenename [1; 2; 3; 4; 5; 6; 7; 8; 9; 10; 11; 12] ++ [vol; zonename].

#[global] Instance ZoneBase : SubunitClass (Instance Value) :=
  descriptor_class ZoneBase_functions.

Definition new (subunit_id : string) : Instance Value :=
  {| inst_id := subunit_id; inst_values := ∅ |}.

Definition scene (scene_id : string) : Py.M (World (Instance Value)) unit :=
  _put "SCENE" ("Scene " ++ scene_id).

Definition supported_steps : list Py.number := [Py.Int 1; Py.Int 2; Py.Int 5].

Definition vol_up (step_size : Py.number) : Py.M (World (Instance Value)) unit :=
  let value :=
    if Py.contains step_size supported_steps
    then "Up " ++ Py.format step_size ++ " dB"
    else "Up" in
  _put "VOL" value.

Definition vol_down (step_size : Py.number) : Py.M (World (Instance Value)) unit :=
  let value :=
    if Py.contains step_size supported_steps
    then "Down " ++ Py.format step_size ++ " dB"
    else "Down" in
  _put "VOL" value.

End Subunits_zone.

(* ===================================================================== *)
(** * receiver.py *)
(* ===================================================================== *)

Module Receiver.
Import Connection Constants Subunit.

(** Modelled from the spec: system.py is missing. The system subunit has
    the id [SYS]; the functions its [initialize()] asks for are a
    parameter. *)
Record System := { system_id : string }.

Definition System_new : System := {| system_id := SYS |}.

Inductive SubunitObject :=
| SystemObject (s : System)
| ZoneObject (z : Zone.Zone).

Record Receiver := {
  _serial_url : string;
  _connection : option YncaConnection;
  _available_subunits : Py.Dict.t bool;
  _initialized_event : bool;
  subunits : gmap string SubunitObject
}.

(** [Receiver(serial_url)] *)
Definition new (serial_url : string) : Receiver :=
  {| _serial_url := serial_url; _connection := None;
     _available_subunits := Py.Dict.empty; _initialized_event := false;
     subunits := ∅ |}.

Definition set_connection (c : option YncaConnection) (self : Receiver) : Receiver :=
  {| _serial_url := _serial_url self; _connection := c;
     _available_subunits := _available_subunits self;
     _initialized_event := _initialized_event self; subunits := subunits self |}.

Definition set_available_subunits (d : Py.Dict.t bool) (self : Receiver) : Receiver :=
  {| _serial_url := _serial_url self; _connection := _connection self;
     _available_subunits := d;
     _initialized_event := _initialized_event self; subunits := subunits self |}.

Definition set_initialized_event (flag : bool) (self : Receiver) : Receiver :=
  {| _serial_url := _serial_url self; _connection := _connection self;
     _available_subunits := _available_subunits self;
     _initialized_event := flag; subunits := subunits self |}.

Definition set_subunit (k : string) (o : SubunitObject) (self : Receiver) : Receiver :=
  {| _serial_url := _serial_url self; _connection := _connection self;
     _available_subunits := _available_subunits self;
     _initialized_event := _initialized_event self;
     subunits := <[k := o]> (subunits self) |}.

(** A call on [self._connection]; on [None] Python raises AttributeError. *)
Definition on_connection (f : YncaConnection -> YncaConnection) : Py.M Receiver unit :=
  fun self =>
    match _connection self with
    | Some c => (Py.Return tt, set_connection (Some (f c)) self)
    | None => (Py.Raise (Py.AttributeError "NoneType has no such attribute"), self)
    end.

Definition read_connection {A} (f : YncaConnection -> A) : Py.M Receiver A :=
  fun self =>
    match _connection self with
    | Some c => (Py.Return (f c), self)
    | None => (Py.Raise (Py.AttributeError "NoneType has no such attribute"), self)
    end.

(** A method of a subunit object that shares the receiver's session: it
    runs against the object and the session, and the session it leaves is
    the receiver's. *)
Definition call {T A} (obj : T) (method : Py.M (World T) A) : Py.M Receiver (A * T) :=
  fun self =>
    match _connection self with
    | Some c =>
        match method (obj, c) with
        | (Py.Return a, (obj', c')) => (Py.Return (a, obj'), set_connection (Some c') self)
        | (Py.Raise e, (_, c')) => (Py.Raise e, set_connection (Some c') self)
        end
    | None => (Py.Raise (Py.AttributeError "NoneType has no such attribute"), self)
    end.

Definition is_end_marker (ev : ProtocolEvent) : bool :=
  String.eqb (ev_subunit ev) SYS && String.eqb (ev_function ev) "VERSION".

Definition _protocol_message_received (ev : ProtocolEvent) (self : Receiver) : Receiver :=
  let self :=
    if String.eqb (ev_function ev) "AVAIL"
    then set_available_subunits
           (Py.Dict.set (ev_subunit ev) (is_OK (ev_status ev)) (_available_subunits self))
           self
    else self in
  if is_end_marker ev then set_initialized_event true self else self.

(** The session hands an event to the receiver while its callback is
    registered. *)
Definition deliver (ev : ProtocolEvent) (self : Receiver) : Receiver :=
  match _connection self with
  | Some c =>
      if existsb (Callback_eqb ReceiverCallback) (message_callbacks c)
      then _protocol_message_received ev self
      else self
  | None => self
  end.

(** [self._initialized_event.wait(timeout)]. The incoming events carry
    their arrival time in seconds, counted from the start of the wait, and
    come in order of arrival. The wait is over as soon as the flag is set;
    it gives up at the first event that arrives after the timeout. *)
Fixpoint wait (timeout : Q) (incoming : list (Q * ProtocolEvent)) (self : Receiver) : bool * Receiver :=
  if _initialized_event self then (true, self)
  else
    match incoming with
    | [] => (false, self)
    | (t, ev) :: rest =>
        if Qle_bool t timeout then wait timeout rest (deliver ev self)
        else (false, self)
    end.

(** Seconds allowed per command sent. The timeout is the exact product of
    the number of commands and this margin; Python's float product is that
    number up to rounding. *)
Definition per_command_margin : Q := 0.120.

Section Catalog.

(** The members of the [Subunit] enum in declaration order, the [ZONES]
    list (both of constants.py) and the functions the system subunit asks
    for when it initializes. *)
Variable Subunit_members : list string.
Variable ZONES : list string.
Variable System_initialize_functions : list string.

Definition System_initialize : Py.M (World System) unit :=
  Py.for_each System_initialize_functions
    (fun function_ =>
       Py.modify (fun w : World System => (fst w, get (system_id (fst w)) function_ (snd w)))).

Definition _detect_available_subunits (incoming : list (Q * ProtocolEvent)) : Py.M Receiver unit :=
  Py.modify (set_initialized_event false);;;
  on_connection (register_message_callback ReceiverCallback);;;
  let! num_commands_sent_start := read_connection num_commands_sent in
  Py.modify (set_available_subunits Py.Dict.empty);;;
  Py.for_each Subunit_members
    (fun subunit_id => on_connection (get subunit_id "AVAIL"));;;
  on_connection (get SYS "VERSION");;;
  let! num_commands_sent_now := read_connection num_commands_sent in
  let timeout :=
    (inject_Z (num_commands_sent_now - num_commands_sent_start) * per_command_margin)%Q in
  let! released :=
    (fun self => let (flag, self') := wait timeout incoming self in (Py.Return flag, self')) in
  if negb released
  then Py.raise (Py.YncaInitializationFailedException "Subunit availability check failed")
  else on_connection (unregister_message_callback ReceiverCallback).

Definition _initialize_available_subunits : Py.M Receiver unit :=
  let! system := call System_new System_initialize in
  Py.modify (set_subunit (system_id (snd system)) (SystemObject (snd system)));;;
  let! available_subunits := Py.read _available_subunits in
  Py.for_each (Py.Dict.items available_subunits)
    (fun item =>
       let subunit_id := fst item in
       let available := snd item in
       if negb available then Py.ret tt
       else if existsb (String.eqb subunit_id) ZONES then
         let! subunit := call (Zone.new subunit_id) initialize in
         Py.modify (set_subunit (Zone.zone_id (snd subunit)) (ZoneObject (snd subunit)))
       else Py.ret tt).

(** [initialize()]; [connect()] opens the transport and changes nothing
    the model keeps. *)
Definition initialize (incoming : list (Q * ProtocolEvent)) : Py.M Receiver unit :=
  (fun self =>
     (Py.Return tt, set_connection (Some (create_from_serial_url (_serial_url self))) self));;;
  _detect_available_subunits incoming;;;
  _initialize_available_subunits.

End Catalog.

(** The ids recorded as available. *)
Definition available_ids (self : Receiver) : list string :=
  map fst (List.filter snd (Py.Dict.items (_available_subunits self))).

(** ** The inputs of the receiver *)

Section Inputs.

(** [SUBUNIT_INPUT_MAPPINGS]: its keys are members of the [Subunit] enum,
    whose values constants.py holds; the table is a parameter. So is the
    [inputs] property of the system subunit (system.py). *)
Variable SUBUNIT_INPUT_MAPPINGS : Py.Dict.t string.
Variable System_inputs : System -> Py.Dict.t string.

(** The loop over [self._available_subunits.items()]. *)
Definition add_internal_inputs (items : list (string * bool)) (inputs : Py.Dict.t string) : Py.Dict.t string :=
  fold_left
    (fun inputs (item : string * bool) =>
       match snd item, Py.Dict.get (fst item) SUBUNIT_INPUT_MAPPINGS with
       | true, Some input_id => Py.Dict.set input_id input_id inputs
       | _, _ => inputs
       end)
    items inputs.

(** The [inputs] property. An entry under SYS that is no system subunit
    has no [inputs] attribute. *)
Definition inputs (self : Receiver) : Py.Outcome (Py.Dict.t string) :=
  match subunits self !! SYS with
  | Some (SystemObject system) =>
      Py.Return (add_internal_inputs (Py.Dict.items (_available_subunits self))
                   (System_inputs system))
  | Some (ZoneObject _) => Py.Raise (Py.AttributeError "Zone has no attribute inputs")
  | None =>
      Py.Return (add_internal_inputs (Py.Dict.items (_available_subunits self))
                   Py.Dict.empty)
  end.

End Inputs.

(** The table as receiver.py writes it, each member of [Subunit] under its
    own name. *)
Definition SUBUNIT_INPUT_MAPPINGS_by_name : Py.Dict.t string :=
  [("TUN", "TUNER"); ("SIRIUS", "SIRIUS"); ("IPOD", "iPod"); ("BT", "Bluetooth");
   ("RHAP", "Rhapsody"); ("SIRIUSIR", "SIRIUS InternetRadio"); ("PANDORA", "Pandora");
   ("NAPSTER", "Napster"); ("PC", "PC"); ("NETRADIO", "NET RADIO");
   ("IPODUSB", "iPod (USB)"); ("UAW", "UAW")].

End Receiver.

(* ===================================================================== *)
(** * Properties *)
(* ===================================================================== *)

Import Connection Subunit.

(** ** Sanity checks of the builtins and helpers *)

Example round_examples :
  Py.round (3 # 5) = 1 /\ Py.round (1 # 2) = 0 /\ Py.round (3 # 2) = 2
  /\ Py.round (- (1 # 2)) = 0 /\ Py.round (-161) = -161.
Proof. repeat split; reflexivity. Qed.

Example float_examples :
  Py.float "16.5" = Some (33 # 2) /\ Py.float "-80.5" = Some (-161 # 2)
  /\ Py.float "5" = Some (5 # 1) /\ Py.float "abc" = None
  /\ Py.float "" = None /\ Py.float "1.5x" = None.
Proof. repeat split; reflexivity. Qed.

Example format_examples :
  Py.format (Py.Int 1) = "1" /\ Py.format (Py.Float 1) = "1.0"
  /\ Py.format (Py.Float 0.5) = "0.5" /\ Py.format (Py.Float (-2.25)) = "-2.25".
Proof. repeat split; reflexivity. Qed.

Example stepsize_examples :
  Helpers.number_to_string_with_stepsize 0.3 1 0.5 = "0.5"
  /\ Helpers.number_to_string_with_stepsize 5 1 0.5 = "5"
  /\ Helpers.number_to_string_with_stepsize (-80.5) 1 0.5 = "-80.5"
  /\ Helpers.number_to_string_with_stepsize (-0.3) 1 0.5 = "-0.5"
  /\ Helpers.number_to_string_with_stepsize (-12.2) 1 0.5 = "-12"
  /\ Helpers.number_to_string_with_stepsize 1.26 2 0.25 = "1.25".
Proof. repeat split; reflexivity. Qed.

Example match_scene_name_examples :
  Zone.match_scene_name "SCENE1NAME" = Some "1"
  /\ Zone.match_scene_name "SCENE12NAME" = Some "12"
  /\ Zone.match_scene_name "SCENE3NAMEX" = Some "3"
  /\ Zone.match_scene_name "SCENENAME" = None
  /\ Zone.match_scene_name "XSCENE1NAME" = None
  /\ Zone.match_scene_name "SCENE1NAM" = None
  /\ Zone.match_scene_name "VOL" = None.
Proof. repeat split; reflexivity. Qed.

(** ** Volume steps (zone.py, subunits/zone.py) *)

Section VolumeSteps.

(** The step sizes that are named in the command: 1, 2 or 5, as an int or
    as a float. *)
Definition step_is_1_2_5 (step_size : Py.number) : Prop :=
  (Py.to_Q step_size == 1 \/ Py.to_Q step_size == 2 \/ Py.to_Q step_size == 5)%Q.

Lemma contains_supported_steps (step_size : Py.number) :
  Py.contains step_size Zone.supported_steps = true <-> step_is_1_2_5 step_size.
Proof.
  unfold Py.contains, Zone.supported_steps, step_is_1_2_5, Py.eqb. simpl.
  rewrite !orb_true_iff, !Qeq_bool_iff. intuition discriminate.
Qed.

Lemma contains_unsupported_steps (step_size : Py.number) :
  ~ step_is_1_2_5 step_size -> Py.contains step_size Zone.supported_steps = false.
Proof.
  intros Hn. destruct (Py.contains step_size Zone.supported_steps) eqn:E; [|reflexivity].
  exfalso. apply Hn, contains_supported_steps, E.
Qed.

End VolumeSteps.

(** C10. [volume_up] puts "Up <step_size> dB" on VOL exactly when the step
    size is 1, 2 or 5 and plain "Up" for every other step size, among them
    the default 0.5 and 3; [volume_down] does the same with "Down"; the
    [vol_up] and [vol_down] of subunits/zone.py behave alike. One command is
    sent, and the subunit is left as it was. *)
Theorem volume_step_commands :
  forall (step_size : Py.number) (self : Zone.Zone)
         (z : Instance Subunits_zone.Value) (c : YncaConnection),
    (step_is_1_2_5 step_size ->
       Zone.volume_up step_size (self, c)
       = (Py.Return tt,
          (self, put (Zone.zone_id self) "VOL" ("Up " ++ Py.format step_size ++ " dB") c))
       /\ Zone.volume_down step_size (self, c)
          = (Py.Return tt,
             (self, put (Zone.zone_id self) "VOL" ("Down " ++ Py.format step_size ++ " dB") c))
       /\ Subunits_zone.vol_up step_size (z, c)
          = (Py.Return tt,
             (z, put (inst_id z) "VOL" ("Up " ++ Py.format step_size ++ " dB") c))
       /\ Subunits_zone.vol_down step_size (z, c)
          = (Py.Return tt,
             (z, put (inst_id z) "VOL" ("Down " ++ Py.format step_size ++ " dB") c)))
    /\ (~ step_is_1_2_5 step_size ->
       Zone.volume_up step_size (self, c)
       = (Py.Return tt, (self, put (Zone.zone_id self) "VOL" "Up" c))
       /\ Zone.volume_down step_size (self, c)
          = (Py.Return tt, (self, put (Zone.zone_id self) "VOL" "Down" c))
       /\ Subunits_zone.vol_up step_size (z, c)
          = (Py.Return tt, (z, put (inst_id z) "VOL" "Up" c))
       /\ Subunits_zone.vol_down step_size (z, c)
          = (Py.Return tt, (z, put (inst_id z) "VOL" "Down" c)))
    /\ ~ step_is_1_2_5 Zone.default_step_size
    /\ ~ step_is_1_2_5 (Py.Int 3)
    /\ sent (put (Zone.zone_id self) "VOL" "Up" c)
       = (sent c ++ [{| cmd_subunit := Zone.zone_id self; cmd_function := "VOL";
                        cmd_value := Some "Up" |}])%list.
Proof.
  intros step_size self z c.
  split; [|split; [|split; [|split]]].
  - intros Hs. apply contains_supported_steps in Hs.
    unfold Zone.volume_up, Zone.volume_down, Subunits_zone.vol_up, Subunits_zone.vol_down.
    change Subunits_zone.supported_steps with Zone.supported_steps.
    rewrite Hs. repeat split.
  - intros Hs. apply contains_unsupported_steps in Hs.
    unfold Zone.volume_up, Zone.volume_down, Subunits_zone.vol_up, Subunits_zone.vol_down.
    change Subunits_zone.supported_steps with Zone.supported_steps.
    rewrite Hs. repeat split.
  - unfold step_is_1_2_5. simpl. intros [E | [E | E]]; discriminate E.
  - unfold step_is_1_2_5. simpl. intros [E | [E | E]]; discriminate E.
  - reflexivity.
Qed.

Lemma volume_step_commands_witness :
  Zone.volume_up (Py.Int 2) (Zone.new "MAIN", create_from_serial_url "")
  = (Py.Return tt,
     (Zone.new "MAIN", put "MAIN" "VOL" "Up 2 dB" (create_from_serial_url "")))
  /\ Subunits_zone.vol_down (Py.Float 5) (Subunits_zone.new "MAIN", create_from_serial_url "")
     = (Py.Return tt,
        (Subunits_zone.new "MAIN", put "MAIN" "VOL" "Down 5.0 dB" (create_from_serial_url "")))
  /\ Zone.volume_down (Py.Float 3) (Zone.new "MAIN", create_from_serial_url "")
     = (Py.Return tt,
        (Zone.new "MAIN", put "MAIN" "VOL" "Down" (create_from_serial_url ""))).
Proof.
  destruct (volume_step_commands (Py.Int 2) (Zone.new "MAIN") (Subunits_zone.new "MAIN")
              (create_from_serial_url "")) as [Hnamed _].
  destruct (volume_step_commands (Py.Float 5) (Zone.new "MAIN") (Subunits_zone.new "MAIN")
              (create_from_serial_url "")) as [Hfloat _].
  destruct (volume_step_commands (Py.Float 3) (Zone.new "MAIN") (Subunits_zone.new "MAIN")
              (create_from_serial_url "")) as [_ [Hplain _]].
  split; [|split].
  - apply Hnamed. right; left; reflexivity.
  - apply Hfloat. right; right; reflexivity.
  - apply Hplain. intros [E | [E | E]]; discriminate E.
Defined.

(** ** The volume setter (zone.py) *)

Section VolumeRange.

Definition volume_in_range (self : Zone.Zone) (value : Q) : Prop :=
  (Zone.min_volume self <= value /\ value <= Zone.max_volume self)%Q.

Lemma volume_in_range_test (self : Zone.Zone) (value : Q) :
  Qle_bool (Zone.min_volume self) value && Qle_bool value (Zone._max_volume self) = true
  <-> volume_in_range self value.
Proof.
  unfold volume_in_range, Zone.max_volume.
  rewrite andb_true_iff, !Qle_bool_iff. reflexivity.
Qed.

Lemma volume_set_in_range (value : Q) (self : Zone.Zone) (c : YncaConnection) :
  volume_in_range self value ->
  Zone.volume_set value (self, c)
  = (Py.Return tt,
     (self, put (Zone.zone_id self) "VOL"
              (Helpers.number_to_string_with_stepsize value 1 0.5) c)).
Proof.
  intros Hr. unfold Zone.volume_set. cbn [fst snd].
  rewrite (proj2 (volume_in_range_test self value) Hr). reflexivity.
Qed.

Lemma volume_set_out_of_range (value : Q) (self : Zone.Zone) (c : YncaConnection) :
  ~ volume_in_range self value ->
  Zone.volume_set value (self, c)
  = (Py.Raise (Py.ValueError "Volume out of range, must be between min_volume and max_volume"),
     (self, c)).
Proof.
  intros Hr. unfold Zone.volume_set. cbn [fst snd].
  destruct (Qle_bool (Zone.min_volume self) value && Qle_bool value (Zone._max_volume self))
    eqn:E; [|reflexivity].
  exfalso. apply Hr, volume_in_range_test, E.
Qed.

End VolumeRange.

(** C9. The volume setter sends a VOL PUT if and only if
    [min_volume <= v <= max_volume]; outside that range it raises
    ValueError, sends nothing and leaves the zone as it was. [min_volume] is
    the constant -80.5; [max_volume] is 16.5 after a reset and is whatever
    the last MAXVOL value handled says afterwards. *)
Theorem volume_set_sends_iff_in_range :
  forall (value : Q) (self : Zone.Zone) (c : YncaConnection),
    ((exists text,
         Zone.volume_set value (self, c)
         = (Py.Return tt, (self, put (Zone.zone_id self) "VOL" text c)))
     <-> volume_in_range self value)
    /\ (~ volume_in_range self value ->
        Zone.volume_set value (self, c)
        = (Py.Raise (Py.ValueError
                       "Volume out of range, must be between min_volume and max_volume"),
           (self, c)))
    /\ Zone.min_volume self = (-80.5)%Q
    /\ Zone.max_volume (Zone._reset_internal_state self) = 16.5%Q
    /\ (forall text m, Py.float text = Some m ->
        exists self', Zone._handle_maxvol text self = Some self'
                      /\ Zone.max_volume self' = m
                      /\ Zone.min_volume self' = (-80.5)%Q)
    /\ (forall text m, Py.float text = Some m ->
        Zone.max_volume
          (fst (_protocol_message_received
                  {| ev_status := OK; ev_subunit := Zone.zone_id self;
                     ev_function := "MAXVOL"; ev_value := text |} self)) = m).
Proof.
  intros value self c.
  split; [split|split; [|split; [|split; [|split]]]].
  - intros [text Hs].
    destruct (Qle_bool (Zone.min_volume self) value && Qle_bool value (Zone._max_volume self))
      eqn:E.
    + apply volume_in_range_test, E.
    + unfold Zone.volume_set in Hs. cbn [fst snd] in Hs. rewrite E in Hs. discriminate Hs.
  - intros Hr. eexists. apply volume_set_in_range, Hr.
  - apply volume_set_out_of_range.
  - reflexivity.
  - reflexivity.
  - intros text m Hm. unfold Zone._handle_maxvol. rewrite Hm.
    eexists. split; [reflexivity|split; reflexivity].
  - intros text m Hm. unfold _protocol_message_received. cbn.
    rewrite String.eqb_refl. cbn. unfold Zone._handle_maxvol. rewrite Hm. reflexivity.
Qed.

Lemma volume_set_sends_iff_in_range_witness :
  Zone.volume_set 17 (Zone.new "MAIN", create_from_serial_url "")
  = (Py.Raise (Py.ValueError "Volume out of range, must be between min_volume and max_volume"),
     (Zone.new "MAIN", create_from_serial_url "")).
Proof.
  destruct (volume_set_sends_iff_in_range 17 (Zone.new "MAIN") (create_from_serial_url ""))
    as [_ [Hout _]].
  apply Hout. intros [_ Hle]. vm_compute in Hle. apply Hle. reflexivity.
Defined.

(** ** GET-only descriptors (function_mixins.py) *)

(** C5. A set through a descriptor declared with [CommandType.GET] raises
    the unsupported-operation error whatever the value, and the session is
    left as it was: no command is sent. The descriptors [playbackinfo],
    [artist], [album], [song] and [station] are declared that way. *)
Theorem get_only_set_is_refused :
  (forall (V : Type) (f : YncaFunction V) (v : V) (w : World (Instance V)),
      command_type f = GET ->
      function_set f v w
      = (Py.Raise (Py.UnsupportedOperationError "function does not support PUT"), w))
  /\ Forall (fun f => command_type f = GET)
       [FunctionMixins.playbackinfo; FunctionMixins.artist; FunctionMixins.album;
        FunctionMixins.song; FunctionMixins.station]
  /\ (forall f, In f FunctionMixins.mixin_functions ->
      supports_put (command_type f) = false ->
      forall v w, sent (snd (snd (function_set f v w))) = sent (snd w)).
Proof.
  split; [|split].
  - intros V f v w Hget. unfold function_set. rewrite Hget. reflexivity.
  - repeat constructor.
  - intros f _ Hput v w. unfold function_set. rewrite Hput. reflexivity.
Qed.

Lemma get_only_set_is_refused_witness :
  function_set FunctionMixins.album (FunctionMixins.VStr "Album")
    (FunctionMixins.new "SUBUNIT", create_from_serial_url "")
  = (Py.Raise (Py.UnsupportedOperationError "function does not support PUT"),
     (FunctionMixins.new "SUBUNIT", create_from_serial_url "")).
Proof.
  destruct get_only_set_is_refused as [Hrefused _].
  apply Hrefused. reflexivity.
Defined.

(** ** The media playback scenario (tests/test_mediaplayback_subunits.py) *)

Definition scenario_events : list ProtocolEvent :=
  map (fun fv : string * string =>
         {| ev_status := OK; ev_subunit := "SUBUNIT";
            ev_function := fst fv; ev_value := snd fv |})
      [("ALBUM", "Album"); ("ARTIST", "Artist"); ("SONG", "Song"); ("AVAIL", "Ready");
       ("PLAYBACKINFO", "Pause"); ("REPEAT", "Single"); ("SHUFFLE", "On")].

Definition scenario_subunit : Instance FunctionMixins.Value :=
  dispatch_all scenario_events (FunctionMixins.new "SUBUNIT").

Lemma repeat_set_all (self : Instance FunctionMixins.Value) (c : YncaConnection) :
  function_set FunctionMixins.repeat (FunctionMixins.VRepeat Constants.Repeat_ALL) (self, c)
  = (Py.Return tt, (self, put (inst_id self) "REPEAT" "All" c)).
Proof. reflexivity. Qed.

Lemma playback_play (self : Instance FunctionMixins.Value) (c : YncaConnection) :
  FunctionMixins.playback Constants.Playback_PLAY (self, c)
  = (Py.Return tt, (self, put (inst_id self) "PLAYBACK" "Play" c)).
Proof. reflexivity. Qed.

Lemma scenario_subunit_id : inst_id scenario_subunit = "SUBUNIT".
Proof. vm_compute. reflexivity. Qed.

(** C6. After the events of the scenario are dispatched to the media
    playback subunit SUBUNIT, [repeat] is [Repeat.SINGLE], [shuffle] is
    [Shuffle.ON] and [album] is "Album"; assigning [Repeat.ALL] to [repeat]
    sends exactly PUT SUBUNIT:REPEAT=All, and [playback(Playback.PLAY)] sends
    exactly PUT SUBUNIT:PLAYBACK=Play. *)
Theorem mediaplayback_scenario :
  function_get FunctionMixins.repeat scenario_subunit
  = Some (FunctionMixins.VRepeat Constants.Repeat_SINGLE)
  /\ function_get FunctionMixins.shuffle scenario_subunit
     = Some (FunctionMixins.VShuffle FunctionMixins.Shuffle_ON)
  /\ function_get FunctionMixins.album scenario_subunit
     = Some (FunctionMixins.VStr "Album")
  /\ (forall c : YncaConnection,
      exists c',
        function_set FunctionMixins.repeat (FunctionMixins.VRepeat Constants.Repeat_ALL)
          (scenario_subunit, c)
        = (Py.Return tt, (scenario_subunit, c'))
        /\ sent c' = (sent c ++ [{| cmd_subunit := "SUBUNIT"; cmd_function := "REPEAT";
                                    cmd_value := Some "All" |}])%list
        /\ exists c'',
          FunctionMixins.playback Constants.Playback_PLAY (scenario_subunit, c')
          = (Py.Return tt, (scenario_subunit, c''))
          /\ sent c'' = (sent c' ++ [{| cmd_subunit := "SUBUNIT"; cmd_function := "PLAYBACK";
                                        cmd_value := Some "Play" |}])%list).
Proof.
  split; [vm_compute; reflexivity|].
  split; [vm_compute; reflexivity|].
  split; [vm_compute; reflexivity|].
  intros c.
  exists (put "SUBUNIT" "REPEAT" "All" c). split; [|split].
  - rewrite repeat_set_all, scenario_subunit_id. reflexivity.
  - reflexivity.
  - exists (put "SUBUNIT" "PLAYBACK" "Play" (put "SUBUNIT" "REPEAT" "All" c)). split.
    + rewrite playback_play, scenario_subunit_id. reflexivity.
    + reflexivity.
Qed.

(** ** Scene names (zone.py) *)

Section SceneNames.

Fixpoint all_digits (s : string) : bool :=
  match s with
  | EmptyString => true
  | String c s' => Py.is_digit c && all_digits s'
  end.

(** The names [re.match] accepts for [SCENE(\d+)NAME]: SCENE, one or more
    digits, NAME, and then anything; [scene_id] is the run of digits. *)
Definition scene_name_shape (function_ scene_id : string) : Prop :=
  exists rest,
    function_ = "SCENE" ++ scene_id ++ "NAME" ++ rest
    /\ scene_id <> "" /\ all_digits scene_id = true.

Lemma strip_prefix_spec (prefix s rest : string) :
  Zone.strip_prefix prefix s = Some rest <-> s = prefix ++ rest.
Proof.
  revert s. induction prefix as [|a prefix IH]; intros s; simpl.
  - split; [intros [= ->]; reflexivity | intros ->; reflexivity].
  - destruct s as [|b s]; [split; discriminate|].
    destruct (Ascii.eqb_spec a b) as [->|Hne].
    + rewrite IH. split; [intros ->; reflexivity | intros [= ->]; reflexivity].
    + split; [discriminate | intros [= E _]; contradiction (Hne (eq_sym E))].
Qed.

Lemma take_digits_spec (s : string) :
  s = fst (Py.take_digits s) ++ snd (Py.take_digits s)
  /\ all_digits (fst (Py.take_digits s)) = true.
Proof.
  induction s as [|c s [IHs IHd]]; simpl; [split; reflexivity|].
  destruct (Py.is_digit c) eqn:Ec.
  - destruct (Py.take_digits s) as [ds rest]. simpl in *.
    rewrite Ec, IHd. split; [|reflexivity].
    change (String c s = String c (ds ++ rest)). f_equal. exact IHs.
  - split; reflexivity.
Qed.

Lemma take_digits_run (ds rest : string) :
  all_digits ds = true ->
  match rest with String c _ => Py.is_digit c = false | EmptyString => True end ->
  Py.take_digits (ds ++ rest) = (ds, rest).
Proof.
  intros Hds Hrest. induction ds as [|c ds IH].
  - change ("" ++ rest) with rest.
    destruct rest as [|c rest]; [reflexivity | simpl; rewrite Hrest; reflexivity].
  - change (String c ds ++ rest) with (String c (ds ++ rest)).
    simpl in Hds. apply andb_true_iff in Hds as [Hc Hds].
    simpl. rewrite Hc, (IH Hds). reflexivity.
Qed.

Lemma length_zero_empty (s : string) : (String.length s =? 0)%nat = true <-> s = "".
Proof. destruct s; simpl; split; congruence. Qed.

Lemma match_scene_name_spec (function_ scene_id : string) :
  Zone.match_scene_name function_ = Some scene_id <-> scene_name_shape function_ scene_id.
Proof.
  unfold Zone.match_scene_name, scene_name_shape. split.
  - destruct (Zone.strip_prefix "SCENE" function_) as [rest|] eqn:Ep; [|discriminate].
    apply strip_prefix_spec in Ep.
    destruct (take_digits_spec rest) as [Hsplit Hds].
    destruct (Py.take_digits rest) as [ds rest']. simpl in Hsplit, Hds.
    destruct (String.length ds =? 0)%nat eqn:El; [discriminate|].
    destruct (Zone.strip_prefix "NAME" rest') as [rest''|] eqn:En; [|discriminate].
    apply strip_prefix_spec in En. intros [= <-].
    exists rest''. split; [|split].
    + rewrite Ep, Hsplit, En. reflexivity.
    + intros ->. discriminate El.
    + exact Hds.
  - intros (rest & -> & Hne & Hds).
    replace (Zone.strip_prefix "SCENE" ("SCENE" ++ scene_id ++ "NAME" ++ rest))
      with (Some (scene_id ++ "NAME" ++ rest)) by (symmetry; apply strip_prefix_spec; reflexivity).
    rewrite (take_digits_run scene_id ("NAME" ++ rest) Hds) by reflexivity.
    destruct (String.length scene_id =? 0)%nat eqn:El.
    + apply length_zero_empty in El. contradiction.
    + reflexivity.
Qed.

Lemma match_scene_name_none (function_ : string) :
  Zone.match_scene_name function_ = None <-> forall scene_id, ~ scene_name_shape function_ scene_id.
Proof.
  split.
  - intros Hn scene_id Hs. apply match_scene_name_spec in Hs. congruence.
  - intros Hn. destruct (Zone.match_scene_name function_) as [scene_id|] eqn:E; [|reflexivity].
    exfalso. apply (Hn scene_id), match_scene_name_spec, E.
Qed.

(** No function the zone binds by name starts with SCENE. *)
Lemma scene_name_unbound (function_ : string) :
  Zone.strip_prefix "SCENE" function_ <> None -> Zone.zone_binding function_ = None.
Proof.
  intros Hp. destruct (Zone.strip_prefix "SCENE" function_) as [rest|] eqn:E; [|contradiction].
  apply strip_prefix_spec in E. subst function_. reflexivity.
Qed.

End SceneNames.

(** C8. An event addressed to a zone whose function the zone does not bind
    by name goes to the fallback handler. When the name matches
    [SCENE<digits>NAME] (as [re.match] matches: from the start of the name)
    the value is stored in the scenes dictionary under the digit string and
    the event counts as handled, whatever its status; for every other
    unbound name the handler declines and the event is dropped: nothing
    changes, nobody is notified, nothing is raised. *)
Theorem zone_fallback_scene_names :
  forall (ev : ProtocolEvent) (self : Zone.Zone),
    ev_subunit ev = Zone.zone_id self ->
    Zone.zone_binding (ev_function ev) = None ->
    _protocol_message_received ev self
    = (let (updated, self') :=
         Zone.zone_subunit_message_received_without_handler
           (ev_status ev) (ev_function ev) (ev_value ev) self in
       (self', if updated
               then Some {| upd_subunit := ev_subunit ev; upd_function := ev_function ev;
                            upd_status := ev_status ev; upd_value := ev_value ev |}
               else None))
    /\ (forall scene_id,
        scene_name_shape (ev_function ev) scene_id ->
        Zone.zone_subunit_message_received_without_handler
          (ev_status ev) (ev_function ev) (ev_value ev) self
        = (true, Zone.set_scenes (<[scene_id := ev_value ev]> (Zone._scenes self)) self)
        /\ Zone.scenes (fst (_protocol_message_received ev self)) !! scene_id
           = Some (ev_value ev))
    /\ ((forall scene_id, ~ scene_name_shape (ev_function ev) scene_id) ->
        Zone.zone_subunit_message_received_without_handler
          (ev_status ev) (ev_function ev) (ev_value ev) self
        = (false, self)
        /\ _protocol_message_received ev self = (self, None)).
Proof.
  intros ev self Hid Hunbound.
  assert (Hdispatch :
    _protocol_message_received ev self
    = (let (updated, self') :=
         Zone.zone_subunit_message_received_without_handler
           (ev_status ev) (ev_function ev) (ev_value ev) self in
       (self', if updated
               then Some {| upd_subunit := ev_subunit ev; upd_function := ev_function ev;
                            upd_status := ev_status ev; upd_value := ev_value ev |}
               else None))).
  { unfold _protocol_message_received. cbn [id binding Zone.Zone_class
      _subunit_message_received_without_handler].
    rewrite Hid, String.eqb_refl, Hunbound. reflexivity. }
  split; [exact Hdispatch|split].
  - intros scene_id Hshape. apply match_scene_name_spec in Hshape.
    assert (Hh : Zone.zone_subunit_message_received_without_handler
                   (ev_status ev) (ev_function ev) (ev_value ev) self
                 = (true, Zone.set_scenes (<[scene_id := ev_value ev]> (Zone._scenes self)) self)).
    { unfold Zone.zone_subunit_message_received_without_handler. rewrite Hshape. reflexivity. }
    split; [exact Hh|].
    rewrite Hdispatch, Hh. cbn. apply lookup_insert_eq.
  - intros Hnone. apply match_scene_name_none in Hnone.
    assert (Hh : Zone.zone_subunit_message_received_without_handler
                   (ev_status ev) (ev_function ev) (ev_value ev) self = (false, self)).
    { unfold Zone.zone_subunit_message_received_without_handler. rewrite Hnone. reflexivity. }
    split; [exact Hh|]. rewrite Hdispatch, Hh. reflexivity.
Qed.

Lemma zone_fallback_scene_names_witness :
  Zone.scenes
    (fst (_protocol_message_received
            {| ev_status := OK; ev_subunit := "MAIN"; ev_function := "SCENE2NAME";
               ev_value := "Movie" |} (Zone.new "MAIN"))) !! "2" = Some "Movie"
  /\ _protocol_message_received
       {| ev_status := OK; ev_subunit := "MAIN"; ev_function := "SLEEP";
          ev_value := "Off" |} (Zone.new "MAIN")
     = (Zone.new "MAIN", None).
Proof.
  split.
  - refine (proj2 (proj1 (proj2 (zone_fallback_scene_names
              {| ev_status := OK; ev_subunit := "MAIN"; ev_function := "SCENE2NAME";
                 ev_value := "Movie" |} (Zone.new "MAIN") eq_refl eq_refl)) "2" _)).
    exists "". split; [reflexivity|split; [discriminate|reflexivity]].
  - refine (proj2 (proj2 (proj2 (zone_fallback_scene_names
              {| ev_status := OK; ev_subunit := "MAIN"; ev_function := "SLEEP";
                 ev_value := "Off" |} (Zone.new "MAIN") eq_refl eq_refl)) _)).
    apply match_scene_name_none. reflexivity.
Defined.

(** ** Which events write cached values (subunit dispatch, zone.py) *)

Section OkOnly.












End OkOnly.



(** ** Rounding to the volume grid (helpers.py, zone.py, subunits/zone.py) *)

Section Rounding.

Lemma round_within_half (q : Q) :
  (- (1 # 2) <= q - inject_Z (Py.round q) /\ q - inject_Z (Py.round q) <= 1 # 2)%Q.
Proof.
  unfold Py.round.
  pose proof (Qfloor_le q) as Hlo. pose proof (Qlt_floor q) as Hhi.
  rewrite inject_Z_plus in Hhi. change (inject_Z 1) with 1%Q in Hhi.
  destruct (Qcompare_spec (q - inject_Z (Qfloor q)) (1 # 2)) as [E | E | E].
  - destruct (Z.even (Qfloor q));
      [|rewrite inject_Z_plus; change (inject_Z 1) with 1%Q]; split; lra.
  - split; lra.
  - rewrite inject_Z_plus. change (inject_Z 1) with 1%Q. split; lra.
Qed.

Lemma round_comp (q q' : Q) : (q == q')%Q -> Py.round q = Py.round q'.
Proof.
  intros E. unfold Py.round. rewrite (Qfloor_comp _ _ E).
  assert (Ec : (q - inject_Z (Qfloor q') ?= 1 # 2)%Q = (q' - inject_Z (Qfloor q') ?= 1 # 2)%Q).
  { apply Qcompare_comp; [rewrite E|]; reflexivity. }
  rewrite Ec. reflexivity.
Qed.

Lemma round_integer (z : Z) : Py.round (inject_Z z) = z.
Proof.
  unfold Py.round. rewrite Qfloor_Z.
  destruct (Qcompare_spec (inject_Z z - inject_Z z) (1 # 2)) as [E | E | E].
  - exfalso. lra.
  - reflexivity.
  - exfalso. lra.
Qed.

End Rounding.

Section Rendering.

(** The decimals of a rendered number: what follows the first point, if
    there is one. *)
Fixpoint decimals_of (text : string) : option string :=
  match text with
  | EmptyString => None
  | String c rest => if Ascii.eqb c "." then Some rest else decimals_of rest
  end.

Lemma decimals_of_uint (d : Decimal.uint) (rest : string) :
  decimals_of (NilEmpty.string_of_uint d ++ rest) = decimals_of rest.
Proof.
  induction d; cbn [NilEmpty.string_of_uint];
    [reflexivity | change (String ?c ?s ++ rest) with (String c (s ++ rest)); exact IHd ..].
Qed.

Lemma decimals_of_str_int (z : Z) (rest : string) :
  decimals_of (Py.str_int z ++ rest) = decimals_of rest.
Proof.
  unfold Py.str_int, NilZero.string_of_int, NilZero.string_of_uint.
  destruct (Z.to_int z) as [d | d].
  - destruct d; try apply (decimals_of_uint _ rest). reflexivity.
  - change (String ?c ?s ++ rest) with (String c (s ++ rest)).
    cbn [decimals_of]. change (Ascii.eqb "-" ".") with false. cbn iota.
    destruct d; try apply (decimals_of_uint _ rest). reflexivity.
Qed.

Lemma append_empty_r (s : string) : s ++ "" = s.
Proof.
  induction s as [|c s IH]; [reflexivity|].
  change (String c s ++ "") with (String c (s ++ "")). rewrite IH. reflexivity.
Qed.

(** The text of [k] half steps. *)
Definition half_steps_text (k : Z) : string :=
  (if k <? 0 then "-" else "")
    ++ Py.str_int (Z.abs k / 2) ++ (if Z.even k then "" else ".5").

Lemma render_half_steps (k : Z) :
  Helpers.render_minimal (inject_Z k * 0.5) 1 = half_steps_text k.
Proof.
  unfold Helpers.render_minimal, half_steps_text.
  assert (Hs : Py.round (inject_Z k * 0.5 * inject_Z (10 ^ Z.of_nat 1)) = 5 * k).
  { rewrite <- (round_integer (5 * k)). apply round_comp.
    rewrite inject_Z_mult. change (inject_Z (10 ^ Z.of_nat 1)) with 10%Q.
    change (inject_Z 5) with 5%Q. lra. }
  rewrite Hs. change (10 ^ Z.of_nat 1) with 10.
  assert (Hsign : (5 * k <? 0) = (k <? 0)).
  { destruct (Z.ltb_spec (5 * k) 0), (Z.ltb_spec k 0); try reflexivity; lia. }
  assert (Hip : Z.abs (5 * k) / 10 = Z.abs k / 2).
  { rewrite Z.abs_mul. change (Z.abs 5) with 5. change 10 with (5 * 2).
    apply Z.div_mul_cancel_l; lia. }
  rewrite Hsign, Hip. f_equal. f_equal.
  destruct (Z.even k) eqn:Ek.
  - apply Z.even_spec in Ek as [m ->].
    replace (Z.abs (5 * (2 * m)) mod 10) with 0; [reflexivity|].
    replace (5 * (2 * m)) with (m * 10) by lia.
    rewrite Z.abs_mul. change (Z.abs 10) with 10. symmetry. apply Z.mod_mul. lia.
  - assert (Ho : Z.odd k = true) by (rewrite <- Z.negb_even, Ek; reflexivity).
    apply Z.odd_spec in Ho as [m ->].
    replace (Z.abs (5 * (2 * m + 1)) mod 10) with 5; [reflexivity|].
    symmetry. destruct (Z.le_gt_cases 0 m).
    + rewrite Z.abs_eq by lia.
      replace (5 * (2 * m + 1)) with (5 + m * 10) by lia.
      rewrite Z.mod_add by lia. reflexivity.
    + rewrite Z.abs_neq by lia.
      replace (- (5 * (2 * m + 1))) with (5 + (- m - 1) * 10) by lia.
      rewrite Z.mod_add by lia. reflexivity.
Qed.

Lemma number_to_string_half_steps (value : Q) :
  Helpers.number_to_string_with_stepsize value 1 0.5
  = half_steps_text (Py.round (value / 0.5)).
Proof. unfold Helpers.number_to_string_with_stepsize. apply render_half_steps. Qed.

Lemma half_steps_text_whole (k : Z) :
  Z.even k = true ->
  half_steps_text k = Py.str_int (k / 2) /\ decimals_of (half_steps_text k) = None.
Proof.
  intros Ek. unfold half_steps_text. rewrite Ek, append_empty_r. split.
  - apply Z.even_spec in Ek as [m ->].
    replace (2 * m / 2) with m by (rewrite Z.mul_comm, Z.div_mul; lia).
    replace (Z.abs (2 * m) / 2) with (Z.abs m)
      by (rewrite Z.abs_mul, Z.mul_comm, Z.div_mul; [reflexivity | discriminate]).
    replace (2 * m <? 0) with (m <? 0)
      by (destruct (Z.ltb_spec m 0), (Z.ltb_spec (2 * m) 0); try reflexivity; lia).
    destruct m; reflexivity.
  - destruct (k <? 0).
    + change ("-" ++ ?s) with (String "-" s). cbn [decimals_of].
      change (Ascii.eqb "-" ".") with false. cbn iota.
      rewrite <- (append_empty_r (Py.str_int _)). apply decimals_of_str_int.
    + change ("" ++ ?s) with s.
      rewrite <- (append_empty_r (Py.str_int _)). apply decimals_of_str_int.
Qed.

Lemma half_steps_text_half (k : Z) :
  Z.even k = false ->
  half_steps_text k = (if k <? 0 then "-" else "") ++ Py.str_int (Z.abs k / 2) ++ ".5"
  /\ decimals_of (half_steps_text k) = Some "5".
Proof.
  intros Ek. unfold half_steps_text. rewrite Ek. split; [reflexivity|].
  destruct (k <? 0).
  - change ("-" ++ ?s) with (String "-" s). cbn [decimals_of].
    change (Ascii.eqb "-" ".") with false. cbn iota. apply decimals_of_str_int.
  - apply (decimals_of_str_int _ ".5").
Qed.

(** The grid point [k] half steps away from zero is a nearest one. *)
Lemma round_is_nearest_half_step (value : Q) (j : Z) :
  (Qabs (value - inject_Z (Py.round (value / 0.5)) * 0.5) <= 0.25)%Q
  /\ (Qabs (value - inject_Z (Py.round (value / 0.5)) * 0.5)
      <= Qabs (value - inject_Z j * 0.5))%Q.
Proof.
  pose proof (round_within_half (value / 0.5)) as [Hlo Hhi].
  set (k := Py.round (value / 0.5)) in *.
  assert (Ediv : (value / 0.5 == value * 2)%Q)
    by (unfold Qdiv; apply Qmult_comp; reflexivity).
  rewrite Ediv in Hlo, Hhi.
  assert (Hnear : (Qabs (value - inject_Z k * 0.5) <= 0.25)%Q).
  { apply Qabs_Qle_condition. split; lra. }
  split; [exact Hnear|].
  apply Qabs_Qle_condition in Hnear as [Hn1 Hn2].
  destruct (Z.lt_trichotomy j k) as [Hjk | [-> | Hjk]].
  - assert (Hq : (inject_Z j + 1 <= inject_Z k)%Q).
    { change 1%Q with (inject_Z 1). rewrite <- inject_Z_plus. rewrite <- Zle_Qle. lia. }
    apply Qabs_case; intros; apply Qabs_case; intros; lra.
  - apply Qle_refl.
  - assert (Hq : (inject_Z k + 1 <= inject_Z j)%Q).
    { change 1%Q with (inject_Z 1). rewrite <- inject_Z_plus. rewrite <- Zle_Qle. lia. }
    apply Qabs_case; intros; apply Qabs_case; intros; lra.
Qed.

End Rendering.

(** C7. For an in-range value the volume setter sends one VOL PUT whose
    value is the nearest multiple of 0.5 (some [k] half steps), written
    with no more precision than needed: a whole number is written as the
    integer, with no decimal point; a half value is written with exactly
    one decimal, 5. The [vol] function of subunits/zone.py writes the same
    text. 0.3 goes out as 0.5. *)
Theorem volume_set_rounds_to_half_steps :
  forall (value : Q) (self : Zone.Zone) (c : YncaConnection),
    volume_in_range self value ->
    exists (k : Z) (text : string),
      Zone.volume_set value (self, c)
      = (Py.Return tt, (self, put (Zone.zone_id self) "VOL" text c))
      /\ (forall z : Instance Subunits_zone.Value,
          function_set Subunits_zone.vol (Subunits_zone.VFloat value) (z, c)
          = (Py.Return tt, (z, put (inst_id z) "VOL" text c)))
      /\ (Qabs (value - inject_Z k * 0.5) <= 0.25)%Q
      /\ (forall j : Z,
          (Qabs (value - inject_Z k * 0.5) <= Qabs (value - inject_Z j * 0.5))%Q)
      /\ (Z.even k = true ->
          text = Py.str_int (k / 2) /\ decimals_of text = None)
      /\ (Z.even k = false ->
          text = (if k <? 0 then "-" else "") ++ Py.str_int (Z.abs k / 2) ++ ".5"
          /\ decimals_of text = Some "5").
Proof.
  intros value self c Hr.
  exists (Py.round (value / 0.5)), (half_steps_text (Py.round (value / 0.5))).
  split; [|split; [|split; [|split; [|split]]]].
  - rewrite (volume_set_in_range value self c Hr), number_to_string_half_steps. reflexivity.
  - intros z. unfold function_set. cbn [supports_put command_type Subunits_zone.vol
      Subunits_zone.FloatFunction converter to_str Subunits_zone.FloatConverter function_name].
    rewrite number_to_string_half_steps. reflexivity.
  - apply (round_is_nearest_half_step value 0).
  - intros j. apply (round_is_nearest_half_step value j).
  - apply half_steps_text_whole.
  - apply half_steps_text_half.
Qed.

Lemma volume_set_rounds_to_half_steps_witness :
  exists (k : Z) (text : string),
    Zone.volume_set 0.3 (Zone.new "MAIN", create_from_serial_url "")
    = (Py.Return tt,
       (Zone.new "MAIN", put (Zone.zone_id (Zone.new "MAIN")) "VOL" text
                           (create_from_serial_url "")))
    /\ (forall z : Instance Subunits_zone.Value,
        function_set Subunits_zone.vol (Subunits_zone.VFloat 0.3)
          (z, create_from_serial_url "")
        = (Py.Return tt, (z, put (inst_id z) "VOL" text (create_from_serial_url ""))))
    /\ (Qabs (0.3 - inject_Z k * 0.5) <= 0.25)%Q
    /\ (forall j : Z,
        (Qabs (0.3 - inject_Z k * 0.5) <= Qabs (0.3 - inject_Z j * 0.5))%Q)
    /\ (Z.even k = true ->
        text = Py.str_int (k / 2) /\ decimals_of text = None)
    /\ (Z.even k = false ->
        text = (if k <? 0 then "-" else "") ++ Py.str_int (Z.abs k / 2) ++ ".5"
        /\ decimals_of text = Some "5").
Proof.
  apply (volume_set_rounds_to_half_steps 0.3 (Zone.new "MAIN") (create_from_serial_url "")).
  split; apply Qle_bool_iff; reflexivity.
Defined.

Example volume_set_0_3 :
  Zone.volume_set 0.3 (Zone.new "MAIN", create_from_serial_url "")
  = (Py.Return tt, (Zone.new "MAIN", put "MAIN" "VOL" "0.5" (create_from_serial_url "")))
  /\ Zone.volume_set (-20) (Zone.new "MAIN", create_from_serial_url "")
  = (Py.Return tt, (Zone.new "MAIN", put "MAIN" "VOL" "-20" (create_from_serial_url ""))).
Proof. split; reflexivity. Qed.

(** ** The insertion-ordered dict *)

Section DictFacts.
Context {V : Type}.

Lemma dict_get_set_eq (k : string) (v : V) (d : Py.Dict.t V) :
  Py.Dict.get k (Py.Dict.set k v d) = Some v.
Proof.
  induction d as [|[k' v'] d IH]; simpl.
  - rewrite String.eqb_refl. reflexivity.
  - destruct (String.eqb k k') eqn:E; simpl; rewrite E; [reflexivity | exact IH].
Qed.

Lemma dict_get_set_ne (k k' : string) (v : V) (d : Py.Dict.t V) :
  k <> k' -> Py.Dict.get k' (Py.Dict.set k v d) = Py.Dict.get k' d.
Proof.
  intros Hne. induction d as [|[k0 v0] d IH]; simpl.
  - destruct (String.eqb_spec k' k); [congruence | reflexivity].
  - destruct (String.eqb_spec k k0) as [->|Hk]; simpl.
    + destruct (String.eqb_spec k' k0); [congruence | reflexivity].
    + destruct (String.eqb_spec k' k0); [reflexivity | exact IH].
Qed.

Lemma dict_keys_set (k : string) (v : V) (d : Py.Dict.t V) :
  forall k', In k' (Py.Dict.keys (Py.Dict.set k v d)) <-> k' = k \/ In k' (Py.Dict.keys d).
Proof.
  intros k'. induction d as [|[k0 v0] d IH]; simpl.
  - intuition congruence.
  - destruct (String.eqb_spec k k0) as [->|Hk]; simpl.
    + intuition congruence.
    + rewrite IH. intuition congruence.
Qed.

Lemma dict_set_NoDup (k : string) (v : V) (d : Py.Dict.t V) :
  List.NoDup (Py.Dict.keys d) -> List.NoDup (Py.Dict.keys (Py.Dict.set k v d)).
Proof.
  induction d as [|[k0 v0] d IH]; simpl; intros Hnd.
  - constructor; [intros [] | constructor].
  - inversion Hnd as [|? ? Hnotin Hnd']; subst.
    destruct (String.eqb_spec k k0) as [->|Hk]; simpl.
    + constructor; assumption.
    + constructor; [|apply IH, Hnd'].
      intros Hin. apply dict_keys_set in Hin as [-> | Hin]; [congruence | contradiction].
Qed.

Lemma dict_get_In (k : string) (v : V) (d : Py.Dict.t V) :
  List.NoDup (Py.Dict.keys d) ->
  (Py.Dict.get k d = Some v <-> In (k, v) (Py.Dict.items d)).
Proof.
  unfold Py.Dict.items. induction d as [|[k0 v0] d IH]; simpl; intros Hnd.
  - split; [discriminate | intros []].
  - inversion Hnd as [|? ? Hnotin Hnd']; subst.
    destruct (String.eqb_spec k k0) as [->|Hk].
    + split.
      * intros [= ->]. left; reflexivity.
      * intros [[= ->] | Hin]; [reflexivity|].
        exfalso. apply Hnotin. apply (in_map fst) in Hin. exact Hin.
    + rewrite (IH Hnd'). split; [intros Hin; right; exact Hin|].
      intros [[= E _] | Hin]; [congruence | exact Hin].
Qed.

End DictFacts.

(** ** Discovery (receiver.py) *)

Section Discovery.
Import Receiver.

Variable Subunit_members : list string.

Definition probe (subunit_id : string) : Command :=
  {| cmd_subunit := subunit_id; cmd_function := "AVAIL"; cmd_value := None |}.

Definition end_marker_probe : Command :=
  {| cmd_subunit := Constants.SYS; cmd_function := "VERSION"; cmd_value := None |}.

(** The session once the scan has sent its commands. *)
Definition scan_connection (c : YncaConnection) : YncaConnection :=
  get Constants.SYS "VERSION"
    (fold_left (fun c subunit_id => get subunit_id "AVAIL" c) Subunit_members
       (register_message_callback ReceiverCallback c)).

(** The receiver at the moment the wait begins. *)
Definition scan_start (self : Receiver) (c : YncaConnection) : Receiver :=
  {| _serial_url := _serial_url self;
     _connection := Some (scan_connection c);
     _available_subunits := Py.Dict.empty;
     _initialized_event := false;
     subunits := subunits self |}.

(** One margin per command sent since the scan started. *)
Definition scan_timeout : Q :=
  (inject_Z (Z.of_nat (List.length Subunit_members) + 1) * per_command_margin)%Q.

Lemma probes_sent (ids : list string) (c : YncaConnection) :
  let c' := fold_left (fun c subunit_id => get subunit_id "AVAIL" c) ids c in
  num_commands_sent c' = num_commands_sent c + Z.of_nat (List.length ids)
  /\ sent c' = (sent c ++ map probe ids)%list
  /\ message_callbacks c' = message_callbacks c.
Proof.
  revert c. induction ids as [|i ids IH]; intros c; simpl.
  - rewrite app_nil_r. repeat split; lia.
  - destruct (IH (get i "AVAIL" c)) as (Hn & Hs & Hc). simpl in *.
    rewrite Hn, Hs, Hc. unfold get, transmit; simpl.
    rewrite <- app_assoc. repeat split. lia.
Qed.

Lemma scan_connection_facts (c : YncaConnection) :
  num_commands_sent (scan_connection c)
  = num_commands_sent c + Z.of_nat (List.length Subunit_members) + 1
  /\ sent (scan_connection c)
     = (sent c ++ map probe Subunit_members ++ [end_marker_probe])%list
  /\ existsb (Callback_eqb ReceiverCallback) (message_callbacks (scan_connection c)) = true.
Proof.
  unfold scan_connection.
  destruct (probes_sent Subunit_members (register_message_callback ReceiverCallback c))
    as (Hn & Hs & Hc).
  cbn zeta in *. unfold get at 1 3 5, transmit. cbn [num_commands_sent sent message_callbacks].
  rewrite Hn, Hs, Hc. cbn [register_message_callback num_commands_sent sent message_callbacks].
  split; [reflexivity|split; [rewrite <- app_assoc; reflexivity|]].
  destruct (existsb (Callback_eqb ReceiverCallback) (message_callbacks c)) eqn:E;
    [exact E|].
  rewrite existsb_app, E. reflexivity.
Qed.

Lemma for_each_probes (ids : list string) (self : Receiver) (c : YncaConnection) :
  _connection self = Some c ->
  Py.for_each ids (fun subunit_id => on_connection (get subunit_id "AVAIL")) self
  = (Py.Return tt,
     set_connection
       (Some (fold_left (fun c subunit_id => get subunit_id "AVAIL" c) ids c)) self).
Proof.
  revert self c. induction ids as [|i ids IH]; intros self c Hc; simpl.
  - unfold Py.ret, set_connection. rewrite <- Hc. destruct self; reflexivity.
  - unfold Py.bind, on_connection at 1. rewrite Hc.
    rewrite (IH _ (get i "AVAIL" c)) by reflexivity.
    reflexivity.
Qed.

(** [_detect_available_subunits], with the commands sent and the wait laid
    bare: the timeout the code computes from the two readings of the
    command counter is [scan_timeout]. *)
Lemma detect_unfold (incoming : list (Q * ProtocolEvent)) (self : Receiver) (c : YncaConnection) :
  _connection self = Some c ->
  _detect_available_subunits Subunit_members incoming self
  = (let (flag, self') := wait scan_timeout incoming (scan_start self c) in
     if flag
     then on_connection (unregister_message_callback ReceiverCallback) self'
     else (Py.Raise (Py.YncaInitializationFailedException "Subunit availability check failed"),
           self')).
Proof.
  intros Hc. unfold _detect_available_subunits, Py.bind, Py.modify, Py.raise.
  unfold on_connection at 1. cbn [set_initialized_event _connection]. rewrite Hc.
  unfold read_connection at 1. cbn [set_connection _connection].
  cbn [set_available_subunits _connection].
  erewrite for_each_probes by reflexivity.
  unfold on_connection at 1. cbn [set_connection _connection].
  unfold read_connection at 1. cbn [set_connection _connection].
  fold (scan_connection c).
  destruct (scan_connection_facts c) as (Hn & _ & _).
  cbn [register_message_callback num_commands_sent].
  replace (num_commands_sent (scan_connection c) - num_commands_sent c)
    with (Z.of_nat (List.length Subunit_members) + 1) by lia.
  fold scan_timeout.
  match goal with
  | |- context [wait _ _ ?s] => change s with (scan_start self c)
  end.
  destruct (wait scan_timeout incoming (scan_start self c)) as [[|] self']; reflexivity.
Qed.

End Discovery.

Section Waiting.
Import Receiver.

(** The receiver's callback is registered with its session. *)
Definition listening (self : Receiver) : Prop :=
  exists c, _connection self = Some c
            /\ existsb (Callback_eqb ReceiverCallback) (message_callbacks c) = true.

(** The status of the last event about [subunit_id], if there is one. *)
Fixpoint last_status (subunit_id : string) (evs : list ProtocolEvent) : option YncaProtocolStatus :=
  match evs with
  | [] => None
  | ev :: rest =>
      match last_status subunit_id rest with
      | Some st => Some st
      | None => if String.eqb (ev_subunit ev) subunit_id then Some (ev_status ev) else None
      end
  end.

Definition record_all (evs : list ProtocolEvent) (self : Receiver) : Receiver :=
  fold_left (fun s ev => _protocol_message_received ev s) evs self.

Lemma received_frame (ev : ProtocolEvent) (self : Receiver) :
  _connection (_protocol_message_received ev self) = _connection self
  /\ subunits (_protocol_message_received ev self) = subunits self
  /\ _serial_url (_protocol_message_received ev self) = _serial_url self.
Proof.
  unfold _protocol_message_received.
  destruct (String.eqb (ev_function ev) "AVAIL"), (is_end_marker ev); repeat split.
Qed.

Lemma received_flag (ev : ProtocolEvent) (self : Receiver) :
  _initialized_event (_protocol_message_received ev self)
  = _initialized_event self || is_end_marker ev.
Proof.
  unfold _protocol_message_received.
  destruct (String.eqb (ev_function ev) "AVAIL"), (is_end_marker ev);
    cbn [set_initialized_event set_available_subunits _initialized_event];
    rewrite ?orb_true_r, ?orb_false_r; reflexivity.
Qed.

Lemma received_available (ev : ProtocolEvent) (self : Receiver) :
  _available_subunits (_protocol_message_received ev self)
  = if String.eqb (ev_function ev) "AVAIL"
    then Py.Dict.set (ev_subunit ev) (is_OK (ev_status ev)) (_available_subunits self)
    else _available_subunits self.
Proof.
  unfold _protocol_message_received.
  destruct (String.eqb (ev_function ev) "AVAIL"), (is_end_marker ev); reflexivity.
Qed.

Lemma deliver_listening (ev : ProtocolEvent) (self : Receiver) :
  listening self ->
  deliver ev self = _protocol_message_received ev self
  /\ listening (_protocol_message_received ev self).
Proof.
  intros (c & Hc & Hreg). split.
  - unfold deliver. rewrite Hc, Hreg. reflexivity.
  - exists c. destruct (received_frame ev self) as (-> & _). split; assumption.
Qed.

Lemma deliver_flag (ev : ProtocolEvent) (self : Receiver) :
  is_end_marker ev = false ->
  _initialized_event (deliver ev self) = _initialized_event self.
Proof.
  intros Hm. unfold deliver.
  destruct (_connection self) as [c|]; [|reflexivity].
  destruct (existsb _ _); [|reflexivity].
  rewrite received_flag, Hm, orb_false_r. reflexivity.
Qed.

Lemma deliver_frame (ev : ProtocolEvent) (self : Receiver) :
  _connection (deliver ev self) = _connection self
  /\ subunits (deliver ev self) = subunits self.
Proof.
  unfold deliver. destruct (_connection self) as [c|] eqn:Hc; [|split; [exact Hc|reflexivity]].
  destruct (existsb _ _); [|split; [exact Hc|reflexivity]].
  destruct (received_frame ev self) as (H1 & H2 & _). rewrite H1, H2, Hc. split; reflexivity.
Qed.

Lemma wait_frame (timeout : Q) (incoming : list (Q * ProtocolEvent)) (self : Receiver) :
  _connection (snd (wait timeout incoming self)) = _connection self
  /\ subunits (snd (wait timeout incoming self)) = subunits self.
Proof.
  revert self. induction incoming as [|[t ev] rest IH]; intros self; simpl.
  - destruct (_initialized_event self); split; reflexivity.
  - destruct (_initialized_event self); [split; reflexivity|].
    destruct (Qle_bool t timeout); [|split; reflexivity].
    destruct (IH (deliver ev self)) as (H1 & H2).
    destruct (deliver_frame ev self) as (H3 & H4).
    rewrite H1, H2, H3, H4. split; reflexivity.
Qed.

(** Without an end marker in time the wait times out. *)
Lemma wait_times_out (timeout : Q) (incoming : list (Q * ProtocolEvent)) (self : Receiver) :
  _initialized_event self = false ->
  (forall t ev, In (t, ev) incoming -> is_end_marker ev = true -> ~ (t <= timeout)%Q) ->
  fst (wait timeout incoming self) = false.
Proof.
  revert self. induction incoming as [|[t ev] rest IH]; intros self Hflag Hlate; simpl.
  - rewrite Hflag. reflexivity.
  - rewrite Hflag. destruct (Qle_bool t timeout) eqn:Et; [|reflexivity].
    apply IH.
    + rewrite deliver_flag; [exact Hflag|].
      destruct (is_end_marker ev) eqn:Em; [|reflexivity].
      exfalso. apply (Hlate t ev); [left; reflexivity | exact Em | apply Qle_bool_iff, Et].
    + intros t' ev' Hin. apply Hlate. right. exact Hin.
Qed.

(** Events that are no end marker and arrive in time are all recorded, and
    the end marker that follows them in time releases the wait. *)
Lemma wait_released (timeout : Q) (avails : list (Q * ProtocolEvent))
    (t_end : Q) (ev_end : ProtocolEvent) (self : Receiver) :
  listening self ->
  _initialized_event self = false ->
  Forall (fun te => is_end_marker (snd te) = false /\ (fst te <= timeout)%Q) avails ->
  (t_end <= timeout)%Q ->
  is_end_marker ev_end = true ->
  wait timeout (avails ++ [(t_end, ev_end)]) self
  = (true, _protocol_message_received ev_end (record_all (map snd avails) self)).
Proof.
  intros Hl Hflag Hav Hend Hm. revert self Hl Hflag.
  induction Hav as [|[t ev] rest [Hnm Ht] _ IH]; intros self Hl Hflag; simpl.
  - rewrite Hflag. apply Qle_bool_iff in Hend. rewrite Hend.
    destruct (deliver_listening ev_end self Hl) as (-> & _).
    rewrite received_flag, Hm, orb_true_r. reflexivity.
  - rewrite Hflag. simpl in Ht, Hnm. apply Qle_bool_iff in Ht. rewrite Ht.
    destruct (deliver_listening ev self Hl) as (Hd & Hl').
    rewrite Hd. apply IH; [exact Hl'|].
    rewrite received_flag, Hflag, Hnm. reflexivity.
Qed.

Lemma record_all_available (evs : list ProtocolEvent) (self : Receiver) (subunit_id : string) :
  Forall (fun ev => ev_function ev = "AVAIL") evs ->
  Py.Dict.get subunit_id (_available_subunits (record_all evs self))
  = match last_status subunit_id evs with
    | Some st => Some (is_OK st)
    | None => Py.Dict.get subunit_id (_available_subunits self)
    end.
Proof.
  intros Hav. revert self. induction Hav as [|ev rest Hf _ IH]; intros self; [reflexivity|].
  cbn [record_all fold_left last_status]. fold (record_all rest (_protocol_message_received ev self)).
  rewrite IH. destruct (last_status subunit_id rest); [reflexivity|].
  rewrite received_available, Hf. cbn.
  destruct (String.eqb_spec (ev_subunit ev) subunit_id) as [->|Hne].
  - apply dict_get_set_eq.
  - apply dict_get_set_ne, Hne.
Qed.

Lemma record_all_NoDup (evs : list ProtocolEvent) (self : Receiver) :
  List.NoDup (Py.Dict.keys (_available_subunits self)) ->
  List.NoDup (Py.Dict.keys (_available_subunits (record_all evs self))).
Proof.
  revert self. induction evs as [|ev rest IH]; intros self Hnd; [exact Hnd|].
  cbn [record_all fold_left]. apply IH. rewrite received_available.
  destruct (String.eqb (ev_function ev) "AVAIL"); [apply dict_set_NoDup|]; exact Hnd.
Qed.

Lemma available_ids_spec (self : Receiver) (subunit_id : string) :
  List.NoDup (Py.Dict.keys (_available_subunits self)) ->
  (In subunit_id (available_ids self)
   <-> Py.Dict.get subunit_id (_available_subunits self) = Some true).
Proof.
  intros Hnd. rewrite (dict_get_In _ _ _ Hnd). unfold available_ids.
  rewrite in_map_iff. split.
  - intros ([k v] & Hk & Hin). apply filter_In in Hin as [Hin Hv].
    simpl in *. subst. exact Hin.
  - intros Hin. exists (subunit_id, true). split; [reflexivity|].
    apply filter_In. split; [exact Hin | reflexivity].
Qed.

Lemma last_status_In (subunit_id : string) (evs : list ProtocolEvent) (st : YncaProtocolStatus) :
  last_status subunit_id evs = Some st ->
  exists ev, In ev evs /\ ev_subunit ev = subunit_id /\ ev_status ev = st.
Proof.
  induction evs as [|ev rest IH]; simpl; [discriminate|].
  destruct (last_status subunit_id rest) as [st'|].
  - intros [= ->]. destruct (IH eq_refl) as (ev' & Hin & Hs). exists ev'. split; [right|]; assumption.
  - destruct (String.eqb_spec (ev_subunit ev) subunit_id) as [E|]; [|discriminate].
    intros [= <-]. exists ev. split; [left; reflexivity | split; [exact E | reflexivity]].
Qed.

Lemma last_status_unique (subunit_id : string) (evs : list ProtocolEvent) (ev : ProtocolEvent) :
  List.NoDup (map ev_subunit evs) ->
  In ev evs -> ev_subunit ev = subunit_id ->
  last_status subunit_id evs = Some (ev_status ev).
Proof.
  induction evs as [|ev0 rest IH]; simpl; intros Hnd Hin Hs; [contradiction|].
  inversion Hnd as [|? ? Hnotin Hnd']; subst.
  destruct Hin as [-> | Hin].
  - destruct (last_status (ev_subunit ev) rest) as [st|] eqn:E.
    + exfalso. apply last_status_In in E as (ev' & Hin' & Hs' & _).
      apply Hnotin. rewrite <- Hs'. apply in_map, Hin'.
    + rewrite String.eqb_refl. reflexivity.
  - rewrite (IH Hnd' Hin eq_refl). reflexivity.
Qed.

End Waiting.

Section DiscoveryResults.
Import Receiver.

Lemma scan_start_listening (members : list string) (self : Receiver) (c : YncaConnection) :
  listening (scan_start members self c).
Proof.
  exists (scan_connection members c). split; [reflexivity|].
  apply scan_connection_facts.
Qed.

Lemma avail_is_no_end_marker (ev : ProtocolEvent) :
  ev_function ev = "AVAIL" -> is_end_marker ev = false.
Proof. intros E. unfold is_end_marker. rewrite E. apply andb_false_r. Qed.

Lemma detect_released (members : list string) (self : Receiver) (c : YncaConnection)
    (avails : list (Q * ProtocolEvent)) (t_end : Q) (ev_end : ProtocolEvent) :
  _connection self = Some c ->
  Forall (fun te => ev_function (snd te) = "AVAIL" /\ (fst te <= scan_timeout members)%Q) avails ->
  (t_end <= scan_timeout members)%Q ->
  is_end_marker ev_end = true ->
  _detect_available_subunits members (avails ++ [(t_end, ev_end)]) self
  = (Py.Return tt,
     set_connection
       (Some (unregister_message_callback ReceiverCallback (scan_connection members c)))
       (_protocol_message_received ev_end
          (record_all (map snd avails) (scan_start members self c)))).
Proof.
  intros Hc Hav Hend Hm. rewrite (detect_unfold members _ self c Hc).
  assert (Hav' : Forall (fun te => is_end_marker (snd te) = false
                                   /\ (fst te <= scan_timeout members)%Q) avails).
  { eapply List.Forall_impl; [|exact Hav]. intros te [Hf Ht].
    split; [apply avail_is_no_end_marker, Hf | exact Ht]. }
  pose proof (wait_released (scan_timeout members) avails t_end ev_end
                (scan_start members self c) (scan_start_listening members self c)
                eq_refl Hav' Hend Hm) as Hw.
  pose proof (wait_frame (scan_timeout members) (avails ++ [(t_end, ev_end)])
                (scan_start members self c)) as [Hframe _].
  rewrite Hw in Hframe |- *. cbn [snd] in Hframe.
  unfold on_connection. rewrite Hframe. reflexivity.
Qed.

Lemma detect_times_out (members : list string) (self : Receiver) (c : YncaConnection)
    (incoming : list (Q * ProtocolEvent)) :
  _connection self = Some c ->
  (forall t ev, In (t, ev) incoming -> is_end_marker ev = true ->
                ~ (t <= scan_timeout members)%Q) ->
  _detect_available_subunits members incoming self
  = (Py.Raise (Py.YncaInitializationFailedException "Subunit availability check failed"),
     snd (wait (scan_timeout members) incoming (scan_start members self c))).
Proof.
  intros Hc Hlate. rewrite (detect_unfold members _ self c Hc).
  pose proof (wait_times_out (scan_timeout members) incoming (scan_start members self c)
                eq_refl Hlate) as Hw.
  destruct (wait (scan_timeout members) incoming (scan_start members self c)) as [flag self'].
  simpl in Hw. subst flag. reflexivity.
Qed.

End DiscoveryResults.

(** C1. When the session delivers AVAIL events (in time) followed by a
    VERSION event of the SYS subunit, discovery returns without error; each
    AVAIL event records its subunit as available exactly when its status is
    OK (the last event about a subunit counts, so with one event per
    subunit the available ids are exactly those whose event is OK); the
    event flag is set by a SYS VERSION event and by nothing else, and
    without such an event discovery does not complete. *)
Theorem discovery_records_ok_subunits :
  forall (members : list string) (self : Receiver.Receiver) (c : YncaConnection)
         (avails : list (Q * ProtocolEvent))
         (t_end : Q) (status_end : YncaProtocolStatus) (value_end : string),
    Receiver._connection self = Some c ->
    Forall (fun te => ev_function (snd te) = "AVAIL"
                      /\ (fst te <= scan_timeout members)%Q) avails ->
    (t_end <= scan_timeout members)%Q ->
    exists self',
      Receiver._detect_available_subunits members
        (avails ++ [(t_end, {| ev_status := status_end; ev_subunit := Constants.SYS;
                               ev_function := "VERSION"; ev_value := value_end |})]) self
      = (Py.Return tt, self')
      /\ (forall subunit_id,
          Py.Dict.get subunit_id (Receiver._available_subunits self')
          = option_map is_OK (last_status subunit_id (map snd avails)))
      /\ (forall subunit_id,
          In subunit_id (Receiver.available_ids self')
          <-> last_status subunit_id (map snd avails) = Some OK)
      /\ (List.NoDup (map (fun te => ev_subunit (snd te)) avails) ->
          forall subunit_id,
            In subunit_id (Receiver.available_ids self')
            <-> exists t value,
                In (t, {| ev_status := OK; ev_subunit := subunit_id;
                          ev_function := "AVAIL"; ev_value := value |}) avails)
      /\ (forall ev x,
          Receiver._initialized_event (Receiver._protocol_message_received ev x)
          = Receiver._initialized_event x || Receiver.is_end_marker ev)
      /\ (forall incoming,
          Forall (fun te => Receiver.is_end_marker (snd te) = false) incoming ->
          fst (Receiver._detect_available_subunits members incoming self)
          = Py.Raise (Py.YncaInitializationFailedException
                        "Subunit availability check failed")).
Proof.
  intros members self c avails t_end status_end value_end Hc Hav Hend.
  set (ev_end := {| ev_status := status_end; ev_subunit := Constants.SYS;
                    ev_function := "VERSION"; ev_value := value_end |}).
  eexists. split; [apply (detect_released members self c avails t_end ev_end Hc Hav Hend);
                   reflexivity|].
  assert (Hfun : Forall (fun ev => ev_function ev = "AVAIL") (map snd avails)).
  { apply List.Forall_map. eapply List.Forall_impl; [|exact Hav]. intros te [Hf _]. exact Hf. }
  assert (Hget : forall subunit_id,
    Py.Dict.get subunit_id
      (Receiver._available_subunits
         (Receiver.set_connection
            (Some (unregister_message_callback ReceiverCallback (scan_connection members c)))
            (Receiver._protocol_message_received ev_end
               (record_all (map snd avails) (scan_start members self c)))))
    = option_map is_OK (last_status subunit_id (map snd avails))).
  { intros subunit_id. cbn [Receiver.set_connection Receiver._available_subunits].
    rewrite received_available. cbn [ev_end ev_function]. cbn.
    rewrite (record_all_available _ _ subunit_id Hfun).
    destruct (last_status subunit_id (map snd avails)); reflexivity. }
  assert (Hids : forall subunit_id,
    In subunit_id
       (Receiver.available_ids
          (Receiver.set_connection
             (Some (unregister_message_callback ReceiverCallback (scan_connection members c)))
             (Receiver._protocol_message_received ev_end
                (record_all (map snd avails) (scan_start members self c)))))
    <-> last_status subunit_id (map snd avails) = Some OK).
  { intros subunit_id. rewrite available_ids_spec.
    - rewrite Hget. destruct (last_status subunit_id (map snd avails)) as [[]|]; simpl;
        split; congruence.
    - cbn [Receiver.set_connection Receiver._available_subunits].
      rewrite received_available. cbn [ev_end ev_function]. cbn.
      apply record_all_NoDup. constructor. }
  split; [exact Hget|]. split; [exact Hids|]. split; [|split].
  - intros Hnd subunit_id. rewrite Hids. rewrite <- map_map in Hnd. split.
    + intros Hl. apply last_status_In in Hl as (ev & Hin & Hs & Hst).
      apply in_map_iff in Hin as ([t ev'] & Hev & Hin). simpl in Hev. subst ev'.
      rewrite List.Forall_forall in Hav. destruct (Hav _ Hin) as [Hf _]. simpl in Hf.
      exists t, (ev_value ev). destruct ev; simpl in *. subst. exact Hin.
    + intros (t & value & Hin).
      apply (in_map snd) in Hin. simpl in Hin.
      apply (last_status_unique subunit_id _ _ Hnd Hin). reflexivity.
  - intros ev x. apply received_flag.
  - intros incoming Hnone.
    rewrite (detect_times_out members self c incoming Hc); [reflexivity|].
    intros t ev Hin Hm. rewrite List.Forall_forall in Hnone.
    specialize (Hnone _ Hin). simpl in Hnone. congruence.
Qed.

(** C2. When no SYS VERSION event arrives within the timeout, discovery
    raises YncaInitializationFailedException. The timeout is 0.120 s for
    each command sent since the start of the scan; every probe has gone out
    exactly once when the exception is raised, so nothing is retried, and
    [initialize] passes the exception on without creating a subunit. *)
Theorem discovery_times_out :
  forall (members zones system_functions : list string) (self : Receiver.Receiver)
         (c : YncaConnection) (incoming : list (Q * ProtocolEvent)),
    Receiver._connection self = Some c ->
    (forall t ev, In (t, ev) incoming -> Receiver.is_end_marker ev = true ->
                  ~ (t <= scan_timeout members)%Q) ->
    exists self' c',
      Receiver._detect_available_subunits members incoming self
      = (Py.Raise (Py.YncaInitializationFailedException "Subunit availability check failed"),
         self')
      /\ Receiver._connection self' = Some c'
      /\ scan_timeout members
         = (inject_Z (num_commands_sent c' - num_commands_sent c) * 0.120)%Q
      /\ sent c' = (sent c ++ map probe members ++ [end_marker_probe])%list
      /\ Receiver.subunits self' = Receiver.subunits self
      /\ (forall fresh : Receiver.Receiver,
          fst (Receiver.initialize members zones system_functions incoming fresh)
          = Py.Raise (Py.YncaInitializationFailedException
                        "Subunit availability check failed")
          /\ Receiver.subunits
               (snd (Receiver.initialize members zones system_functions incoming fresh))
             = Receiver.subunits fresh).
Proof.
  intros members zones system_functions self c incoming Hc Hlate.
  pose proof (wait_frame (scan_timeout members) incoming (scan_start members self c))
    as [Hconn Hsub].
  destruct (scan_connection_facts members c) as (Hn & Hs & _).
  exists (snd (Receiver.wait (scan_timeout members) incoming (scan_start members self c))),
         (scan_connection members c).
  split; [apply (detect_times_out members self c incoming Hc Hlate)|].
  split; [exact Hconn|]. split; [|split; [exact Hs|split; [exact Hsub|]]].
  - unfold scan_timeout. rewrite Hn.
    replace (num_commands_sent c + Z.of_nat (List.length members) + 1 - num_commands_sent c)
      with (Z.of_nat (List.length members) + 1) by lia.
    reflexivity.
  - intros fresh. unfold Receiver.initialize, Py.bind. cbv beta.
    set (c0 := create_from_serial_url (Receiver._serial_url fresh)).
    rewrite (detect_times_out members (Receiver.set_connection (Some c0) fresh) c0
               incoming eq_refl Hlate).
    cbn [fst snd]. split; [reflexivity|].
    destruct (wait_frame (scan_timeout members) incoming
                (scan_start members (Receiver.set_connection (Some c0) fresh) c0))
      as [_ Hkeep].
    exact Hkeep.
Qed.

Definition example_members : list string := ["SYS"; "MAIN"; "ZONE2"; "TUN"].

Definition example_avails : list (Q * ProtocolEvent) :=
  [(0.1%Q, {| ev_status := OK; ev_subunit := "MAIN"; ev_function := "AVAIL";
              ev_value := "Ready" |});
   (0.2%Q, {| ev_status := RESTRICTED; ev_subunit := "ZONE2"; ev_function := "AVAIL";
              ev_value := "" |});
   (0.3%Q, {| ev_status := OK; ev_subunit := "TUN"; ev_function := "AVAIL";
              ev_value := "Ready" |})].

Definition example_receiver : Receiver.Receiver :=
  Receiver.set_connection (Some (create_from_serial_url "socket://receiver:50000"))
    (Receiver.new "socket://receiver:50000").

Lemma discovery_records_ok_subunits_witness :
  exists self',
    Receiver._detect_available_subunits example_members
      (example_avails
         ++ [(0.4%Q, {| ev_status := OK; ev_subunit := Constants.SYS;
                        ev_function := "VERSION"; ev_value := "1.80/2.01" |})])
      example_receiver
    = (Py.Return tt, self')
    /\ (forall subunit_id,
        In subunit_id (Receiver.available_ids self')
        <-> last_status subunit_id (map snd example_avails) = Some OK).
Proof.
  destruct (discovery_records_ok_subunits example_members example_receiver
              (create_from_serial_url "socket://receiver:50000") example_avails
              0.4%Q OK "1.80/2.01" eq_refl) as (self' & Hrun & _ & Hids & _).
  - repeat constructor; apply Qle_bool_iff; reflexivity.
  - apply Qle_bool_iff. reflexivity.
  - exists self'. split; assumption.
Defined.

Example discovery_example :
  option_map Receiver.available_ids
    (match Receiver._detect_available_subunits example_members
             (example_avails
                ++ [(0.4%Q, {| ev_status := OK; ev_subunit := Constants.SYS;
                               ev_function := "VERSION"; ev_value := "1.80/2.01" |})])
             example_receiver with
     | (Py.Return _, self') => Some self'
     | (Py.Raise _, _) => None
     end)
  = Some ["MAIN"; "TUN"].
Proof. vm_compute. reflexivity. Qed.

Lemma discovery_times_out_witness :
  exists self' c',
    Receiver._detect_available_subunits example_members
      (example_avails
         ++ [(0.9%Q, {| ev_status := OK; ev_subunit := Constants.SYS;
                        ev_function := "VERSION"; ev_value := "1.80/2.01" |})])
      example_receiver
    = (Py.Raise (Py.YncaInitializationFailedException "Subunit availability check failed"),
       self')
    /\ Receiver._connection self' = Some c'
    /\ sent c' = (map probe example_members ++ [end_marker_probe])%list.
Proof.
  destruct (discovery_times_out example_members [] [] example_receiver
              (create_from_serial_url "socket://receiver:50000")
              (example_avails
                 ++ [(0.9%Q, {| ev_status := OK; ev_subunit := Constants.SYS;
                                ev_function := "VERSION"; ev_value := "1.80/2.01" |})])
              eq_refl) as (self' & c' & Hrun & Hc & _ & Hsent & _).
  - intros t ev Hin Hm Hle.
    repeat (destruct Hin as [Hin | Hin];
            [injection Hin as <- <-; (discriminate Hm || (vm_compute in Hle; apply Hle; reflexivity))|]).
    destruct Hin.
  - exists self', c'. split; [exact Hrun|split; [exact Hc|exact Hsent]].
Defined.

(** ** Creating the subunits (receiver.py) *)

Section CreateSubunits.
Import Receiver.

Variable ZONES : list string.
Variable System_initialize_functions : list string.

Definition zone_initialize_commands (subunit_id : string) : list Command :=
  map (fun function_ =>
         {| cmd_subunit := subunit_id; cmd_function := function_; cmd_value := None |})
      ["BASIC"; "MAXVOL"; "SCENENAME"; "ZONENAME"].

Definition system_initialize_commands : list Command :=
  map (fun function_ =>
         {| cmd_subunit := Constants.SYS; cmd_function := function_; cmd_value := None |})
      System_initialize_functions.

(** The ids a zone is created for: available, and one of [ZONES]; in the
    order the dict lists them. *)
Definition created_zones (available_subunits : Py.Dict.t bool) : list string :=
  map fst
    (List.filter (fun item : string * bool =>
                    snd item && existsb (String.eqb (fst item)) ZONES)
                 (Py.Dict.items available_subunits)).

Definition transmit_all (cmds : list Command) (c : YncaConnection) : YncaConnection :=
  fold_left (fun c cmd => transmit cmd c) cmds c.

Definition add_zones (ids : list string) (m : gmap string SubunitObject) : gmap string SubunitObject :=
  fold_left (fun m subunit_id => <[subunit_id := ZoneObject (Zone.new subunit_id)]> m) ids m.

Lemma transmit_all_sent (cmds : list Command) (c : YncaConnection) :
  sent (transmit_all cmds c) = (sent c ++ cmds)%list.
Proof.
  revert c. induction cmds as [|cmd cmds IH]; intros c; simpl.
  - rewrite app_nil_r. reflexivity.
  - unfold transmit_all in IH. rewrite IH. simpl. rewrite <- app_assoc. reflexivity.
Qed.

Lemma transmit_all_app (cmds cmds' : list Command) (c : YncaConnection) :
  transmit_all (cmds ++ cmds') c = transmit_all cmds' (transmit_all cmds c).
Proof. apply fold_left_app. Qed.

Lemma call_System_initialize (self : Receiver) (c : YncaConnection) :
  _connection self = Some c ->
  call System_new (System_initialize System_initialize_functions) self
  = (Py.Return (tt, System_new),
     set_connection (Some (transmit_all system_initialize_commands c)) self).
Proof.
  intros Hc. unfold call. rewrite Hc.
  assert (Hloop : forall fs c0,
    Py.for_each fs
      (fun function_ =>
         Py.modify (fun w : World System => (fst w, get (system_id (fst w)) function_ (snd w))))
      (System_new, c0)
    = (Py.Return tt,
       (System_new,
        transmit_all
          (map (fun function_ =>
                  {| cmd_subunit := Constants.SYS; cmd_function := function_;
                     cmd_value := None |}) fs) c0))).
  { induction fs as [|f fs IH]; intros c0; [reflexivity|].
    simpl. unfold Py.bind, Py.modify at 1. cbn [fst snd]. rewrite IH. reflexivity. }
  unfold System_initialize. rewrite Hloop. reflexivity.
Qed.

Lemma call_Zone_initialize (subunit_id : string) (self : Receiver) (c : YncaConnection) :
  _connection self = Some c ->
  call (Zone.new subunit_id) Subunit.initialize self
  = (Py.Return (tt, Zone.new subunit_id),
     set_connection (Some (transmit_all (zone_initialize_commands subunit_id) c)) self).
Proof. intros Hc. unfold call. rewrite Hc. reflexivity. Qed.

(** The receiver after zones were created for [ids]. *)
Definition with_zones (ids : list string) (self : Receiver) (c : YncaConnection) : Receiver :=
  {| _serial_url := _serial_url self;
     _connection := Some (transmit_all (flat_map zone_initialize_commands ids) c);
     _available_subunits := _available_subunits self;
     _initialized_event := _initialized_event self;
     subunits := add_zones ids (subunits self) |}.

Lemma create_loop (items : list (string * bool)) (self : Receiver) (c : YncaConnection) :
  _connection self = Some c ->
  Py.for_each items
    (fun item =>
       let subunit_id := fst item in
       let available := snd item in
       if negb available then Py.ret tt
       else if existsb (String.eqb subunit_id) ZONES then
         let! subunit := call (Zone.new subunit_id) Subunit.initialize in
         Py.modify (set_subunit (Zone.zone_id (snd subunit)) (ZoneObject (snd subunit)))
       else Py.ret tt) self
  = (Py.Return tt, with_zones (created_zones items) self c).
Proof.
  revert self c. induction items as [|[subunit_id available] items IH]; intros self c Hc.
  - unfold with_zones, created_zones. simpl. unfold Py.ret. rewrite <- Hc.
    destruct self; reflexivity.
  - cbn [Py.for_each]. unfold Py.bind at 1. cbn [fst snd].
    unfold created_zones. cbn [Py.Dict.items List.filter fst snd].
    destruct available; cbn [negb andb].
    + destruct (existsb (String.eqb subunit_id) ZONES).
      * unfold Py.bind at 1. rewrite (call_Zone_initialize subunit_id self c Hc).
        unfold Py.modify. cbn [snd Zone.zone_id Zone.new Zone._reset_internal_state].
        erewrite IH by reflexivity.
        unfold with_zones. cbn [map fst flat_map add_zones fold_left].
        rewrite transmit_all_app. reflexivity.
      * unfold Py.ret. apply (IH self c Hc).
    + unfold Py.ret. apply (IH self c Hc).
Qed.

Lemma initialize_available_unfold (self : Receiver) (c : YncaConnection) :
  _connection self = Some c ->
  _initialize_available_subunits ZONES System_initialize_functions self
  = (Py.Return tt,
     with_zones (created_zones (_available_subunits self))
       (set_subunit Constants.SYS (SystemObject System_new) self)
       (transmit_all system_initialize_commands c)).
Proof.
  intros Hc. unfold _initialize_available_subunits.
  unfold Py.bind at 1. rewrite (call_System_initialize self c Hc).
  unfold Py.bind at 1. unfold Py.modify at 1.
  unfold Py.bind at 1. unfold Py.read at 1.
  cbn [snd system_id System_new].
  erewrite create_loop by reflexivity. reflexivity.
Qed.

Lemma add_zones_lookup_in (ids : list string) (m : gmap string SubunitObject) (k : string) :
  In k ids -> add_zones ids m !! k = Some (ZoneObject (Zone.new k)).
Proof.
  revert m. induction ids as [|i ids IH]; intros m; [intros []|].
  intros Hin. cbn [add_zones fold_left]. fold (add_zones ids (<[i := ZoneObject (Zone.new i)]> m)).
  destruct (in_dec string_dec k ids) as [Hk | Hk]; [apply IH, Hk|].
  destruct Hin as [-> | Hin]; [|contradiction].
  clear IH. revert m. induction ids as [|j ids IH]; intros m.
  - apply lookup_insert_eq.
  - cbn [add_zones fold_left].
    fold (add_zones ids (<[j := ZoneObject (Zone.new j)]> (<[k := ZoneObject (Zone.new k)]> m))).
    assert (Hjk : j <> k) by (intros ->; apply Hk; left; reflexivity).
    rewrite insert_insert_ne by exact Hjk.
    apply IH. intros Hin. apply Hk. right. exact Hin.
Qed.

Lemma add_zones_lookup_out (ids : list string) (m : gmap string SubunitObject) (k : string) :
  ~ In k ids -> add_zones ids m !! k = m !! k.
Proof.
  revert m. induction ids as [|i ids IH]; intros m Hk; [reflexivity|].
  cbn [add_zones fold_left]. fold (add_zones ids (<[i := ZoneObject (Zone.new i)]> m)).
  rewrite IH by (intros Hin; apply Hk; right; exact Hin).
  apply lookup_insert_ne. intros ->. apply Hk. left. reflexivity.
Qed.

Lemma created_zones_In (d : Py.Dict.t bool) (k : string) :
  In k (created_zones d) <-> In (k, true) (Py.Dict.items d) /\ In k ZONES.
Proof.
  unfold created_zones. rewrite in_map_iff. split.
  - intros ([k' v] & Hk & Hin). simpl in Hk. subst k'.
    apply filter_In in Hin as [Hin Hv]. simpl in Hv.
    apply andb_true_iff in Hv as [-> Hz]. split; [exact Hin|].
    apply existsb_exists in Hz as (z & Hz & E). apply String.eqb_eq in E. subst z. exact Hz.
  - intros [Hin Hz]. exists (k, true). split; [reflexivity|].
    apply filter_In. split; [exact Hin|]. simpl.
    apply existsb_exists. exists k. split; [exact Hz | apply String.eqb_refl].
Qed.

Lemma dict_get_items {V : Type} (k : string) (v : V) (d : Py.Dict.t V) :
  Py.Dict.get k d = Some v -> In (k, v) (Py.Dict.items d).
Proof.
  unfold Py.Dict.items. induction d as [|[k0 v0] d IH]; simpl; [discriminate|].
  destruct (String.eqb_spec k k0) as [->|Hk].
  - intros [= ->]. left. reflexivity.
  - intros Hg. right. apply IH, Hg.
Qed.

End CreateSubunits.

(** C3, as the code has it. After discovery the receiver always creates
    and initializes the system subunit, and creates and initializes one
    zone for every subunit id that is recorded as available and is one of
    [ZONES]; each of these has its entry in [subunits], and the GET
    commands of each [initialize()] go out, the system's first and the
    zones' in the order of the dict. An available id that is not a zone
    gets no instance: [subunits] is left as it was there. *)
Theorem available_zones_are_created :
  forall (zones system_functions : list string) (self : Receiver.Receiver)
         (c : YncaConnection),
    Receiver._connection self = Some c ->
    exists self' c',
      Receiver._initialize_available_subunits zones system_functions self
      = (Py.Return tt, self')
      /\ is_Some (Receiver.subunits self' !! Constants.SYS)
      /\ (~ In Constants.SYS zones ->
          Receiver.subunits self' !! Constants.SYS
          = Some (Receiver.SystemObject Receiver.System_new))
      /\ (forall subunit_id,
          Py.Dict.get subunit_id (Receiver._available_subunits self) = Some true ->
          In subunit_id zones ->
          Receiver.subunits self' !! subunit_id
          = Some (Receiver.ZoneObject (Zone.new subunit_id)))
      /\ (forall subunit_id,
          subunit_id <> Constants.SYS ->
          ~ In subunit_id zones
          \/ ~ In (subunit_id, true) (Py.Dict.items (Receiver._available_subunits self)) ->
          Receiver.subunits self' !! subunit_id = Receiver.subunits self !! subunit_id)
      /\ Receiver._connection self' = Some c'
      /\ sent c'
         = (sent c ++ system_initialize_commands system_functions
              ++ flat_map zone_initialize_commands
                   (created_zones zones (Receiver._available_subunits self)))%list.
Proof.
  intros zones system_functions self c Hc.
  set (ids := created_zones zones (Receiver._available_subunits self)).
  exists (with_zones ids
            (Receiver.set_subunit Constants.SYS (Receiver.SystemObject Receiver.System_new) self)
            (transmit_all (system_initialize_commands system_functions) c)).
  exists (transmit_all (flat_map zone_initialize_commands ids)
            (transmit_all (system_initialize_commands system_functions) c)).
  split; [apply (initialize_available_unfold zones system_functions self c Hc)|].
  cbn [with_zones Receiver.subunits Receiver.set_subunit Receiver._connection].
  split; [|split; [|split; [|split; [|split]]]].
  - destruct (in_dec string_dec Constants.SYS ids) as [Hin | Hout].
    + rewrite add_zones_lookup_in by exact Hin. eexists; reflexivity.
    + rewrite add_zones_lookup_out by exact Hout. rewrite lookup_insert_eq.
      eexists; reflexivity.
  - intros Hsys. rewrite add_zones_lookup_out; [apply lookup_insert_eq|].
    intros Hin. apply created_zones_In in Hin as [_ Hz]. contradiction.
  - intros subunit_id Hav Hz. apply add_zones_lookup_in.
    apply created_zones_In. split; [apply dict_get_items, Hav | exact Hz].
  - intros subunit_id Hne Hnot. rewrite add_zones_lookup_out.
    + apply lookup_insert_ne. intros E. apply Hne. symmetry. exact E.
    + intros Hin. apply created_zones_In in Hin as [Hi Hz]. destruct Hnot; contradiction.
  - reflexivity.
  - rewrite !transmit_all_sent, <- app_assoc. reflexivity.
Qed.

Lemma available_zones_are_created_witness :
  exists self' c',
    Receiver._initialize_available_subunits ["MAIN"; "ZONE2"; "ZONE3"; "ZONE4"] []
      (Receiver.set_available_subunits [("MAIN", true); ("ZONE2", false); ("TUN", true)]
         example_receiver)
    = (Py.Return tt, self')
    /\ Receiver.subunits self' !! "SYS" = Some (Receiver.SystemObject Receiver.System_new)
    /\ Receiver.subunits self' !! "MAIN" = Some (Receiver.ZoneObject (Zone.new "MAIN"))
    /\ Receiver.subunits self' !! "TUN" = None
    /\ Receiver._connection self' = Some c'
    /\ sent c' = zone_initialize_commands "MAIN".
Proof.
  destruct (available_zones_are_created ["MAIN"; "ZONE2"; "ZONE3"; "ZONE4"] []
              (Receiver.set_available_subunits
                 [("MAIN", true); ("ZONE2", false); ("TUN", true)] example_receiver)
              (create_from_serial_url "socket://receiver:50000") eq_refl)
    as (self' & c' & Hrun & _ & Hsys & Hzone & Hother & Hc & Hsent).
  exists self', c'. split; [exact Hrun|]. split; [|split; [|split; [|split]]].
  - apply Hsys. intros Hin. repeat (destruct Hin as [Hin | Hin]; [discriminate Hin|]).
    destruct Hin.
  - apply Hzone; [reflexivity | left; reflexivity].
  - rewrite Hother; [reflexivity | discriminate |].
    left. intros Hin. repeat (destruct Hin as [Hin | Hin]; [discriminate Hin|]).
    destruct Hin.
  - exact Hc.
  - exact Hsent.
Defined.

(** C3 as stated fails: the tuner is recorded as available and gets no
    entry in [subunits]. *)
Lemma available_tuner_is_not_created :
  fst (Receiver.initialize example_members ["MAIN"; "ZONE2"; "ZONE3"; "ZONE4"] []
         (example_avails
            ++ [(0.4%Q, {| ev_status := OK; ev_subunit := Constants.SYS;
                           ev_function := "VERSION"; ev_value := "1.80/2.01" |})])
         (Receiver.new "socket://receiver:50000"))
  = Py.Return tt
  /\ Receiver.available_ids
       (snd (Receiver.initialize example_members ["MAIN"; "ZONE2"; "ZONE3"; "ZONE4"] []
               (example_avails
                  ++ [(0.4%Q, {| ev_status := OK; ev_subunit := Constants.SYS;
                                 ev_function := "VERSION"; ev_value := "1.80/2.01" |})])
               (Receiver.new "socket://receiver:50000")))
     = ["MAIN"; "TUN"]
  /\ Receiver.subunits
       (snd (Receiver.initialize example_members ["MAIN"; "ZONE2"; "ZONE3"; "ZONE4"] []
               (example_avails
                  ++ [(0.4%Q, {| ev_status := OK; ev_subunit := Constants.SYS;
                                 ev_function := "VERSION"; ev_value := "1.80/2.01" |})])
               (Receiver.new "socket://receiver:50000"))) !! "TUN"
     = None
  /\ Receiver.subunits
       (snd (Receiver.initialize example_members ["MAIN"; "ZONE2"; "ZONE3"; "ZONE4"] []
               (example_avails
                  ++ [(0.4%Q, {| ev_status := OK; ev_subunit := Constants.SYS;
                                 ev_function := "VERSION"; ev_value := "1.80/2.01" |})])
               (Receiver.new "socket://receiver:50000"))) !! "MAIN"
     = Some (Receiver.ZoneObject (Zone.new "MAIN")).
Proof. repeat split; vm_compute; reflexivity. Qed.

(* ===================================================================== *)
(** * Further properties of the code *)
(* ===================================================================== *)

(** ** Scenes of a zone (zone.py) *)

Section Scenes.

Lemma activate_scene_known (scene_id text : string) (self : Zone.Zone) (c : YncaConnection) :
  Zone._scenes self !! scene_id = Some text ->
  Zone.activate_scene scene_id (self, c)
  = (Py.Return tt, (self, put (Zone.zone_id self) "SCENE" ("Scene " ++ scene_id) c)).
Proof. intros Hs. unfold Zone.activate_scene. cbn [fst]. rewrite Hs. reflexivity. Qed.

Lemma activate_scene_unknown (scene_id : string) (self : Zone.Zone) (c : YncaConnection) :
  Zone._scenes self !! scene_id = None ->
  Zone.activate_scene scene_id (self, c)
  = (Py.Raise (Py.ValueError "Invalid scene ID"), (self, c)).
Proof. intros Hs. unfold Zone.activate_scene. cbn [fst]. rewrite Hs. reflexivity. Qed.

End Scenes.


(** X2. A scene can be activated once its name has been received: after
    the fallback handler took an event whose function name matches
    SCENE<digits>NAME, whatever its status, [activate_scene] of that digit
    string sends its command; the name is stored under it, and the scenes
    received before stay as they were. *)
Theorem received_scene_can_be_activated :
  forall (status : YncaProtocolStatus) (function_ value : string) (self : Zone.Zone)
         (scene_id : string) (c : YncaConnection),
    scene_name_shape function_ scene_id ->
    exists self',
      Zone.zone_subunit_message_received_without_handler status function_ value self
      = (true, self')
      /\ Zone.activate_scene scene_id (self', c)
         = (Py.Return tt, (self', put (Zone.zone_id self) "SCENE" ("Scene " ++ scene_id) c))
      /\ Zone.scenes self' !! scene_id = Some value
      /\ (forall other, other <> scene_id ->
          Zone.scenes self' !! other = Zone.scenes self !! other).
Proof.
  intros status function_ value self scene_id c Hshape.
  apply match_scene_name_spec in Hshape.
  exists (Zone.set_scenes (<[scene_id := value]> (Zone._scenes self)) self).
  split; [|split; [|split]].
  - unfold Zone.zone_subunit_message_received_without_handler. rewrite Hshape. reflexivity.
  - apply (activate_scene_known scene_id value
             (Zone.set_scenes (<[scene_id := value]> (Zone._scenes self)) self) c).
    apply lookup_insert_eq.
  - apply lookup_insert_eq.
  - intros other Hne. apply lookup_insert_ne. intros E. apply Hne. symmetry. exact E.
Qed.

Lemma received_scene_can_be_activated_witness :
  exists self',
    Zone.zone_subunit_message_received_without_handler OK "SCENE3NAME" "TV" (Zone.new "MAIN")
    = (true, self')
    /\ Zone.activate_scene "3" (self', create_from_serial_url "")
       = (Py.Return tt, (self', put "MAIN" "SCENE" "Scene 3" (create_from_serial_url ""))).
Proof.
  destruct (received_scene_can_be_activated OK "SCENE3NAME" "TV" (Zone.new "MAIN") "3"
              (create_from_serial_url "")) as (self' & Hh & Ha & _).
  - exists "". split; [reflexivity|split; [discriminate|reflexivity]].
  - exists self'. split; [exact Hh | exact Ha].
Defined.

(** ** Initializing a zone (zone.py) *)

(** X3. [on_initialize] forgets what the zone had learned: whatever its
    state, the zone afterwards is a fresh zone of the same id (maximum
    volume 16.5, no volume, no scenes, no attributes), and exactly the GETs
    of BASIC, MAXVOL, SCENENAME and ZONENAME have gone out, in that order.
    So no scene can be activated right after it, and the volume range is
    the default one again. *)
Theorem on_initialize_resets_zone :
  forall (self : Zone.Zone) (c : YncaConnection),
    exists c',
      Zone.zone_on_initialize (self, c)
      = (Py.Return tt, (Zone.new (Zone.zone_id self), c'))
      /\ sent c'
         = (sent c
              ++ map (fun function_ =>
                        {| cmd_subunit := Zone.zone_id self; cmd_function := function_;
                           cmd_value := None |})
                     ["BASIC"; "MAXVOL"; "SCENENAME"; "ZONENAME"])%list
      /\ num_commands_sent c' = num_commands_sent c + 4
      /\ (forall scene_id,
          Zone.activate_scene scene_id (Zone.new (Zone.zone_id self), c')
          = (Py.Raise (Py.ValueError "Invalid scene ID"),
             (Zone.new (Zone.zone_id self), c')))
      /\ (forall value,
          fst (Zone.volume_set value (Zone.new (Zone.zone_id self), c')) = Py.Return tt
          <-> (-80.5 <= value /\ value <= 16.5)%Q).
Proof.
  intros self c.
  exists (transmit_all (zone_initialize_commands (Zone.zone_id self)) c).
  split; [reflexivity|].
  split; [|split; [|split]].
  - apply transmit_all_sent.
  - cbn. lia.
  - intros scene_id. apply activate_scene_unknown. apply lookup_empty.
  - intros value.
    set (z := Zone.new (Zone.zone_id self)).
    change (-80.5 <= value /\ value <= 16.5)%Q with (volume_in_range z value).
    destruct (Qle_bool (Zone.min_volume z) value && Qle_bool value (Zone._max_volume z))
      eqn:E.
    + apply volume_in_range_test in E.
      rewrite (volume_set_in_range value z _ E). split; [intros _; exact E | reflexivity].
    + assert (Hout : ~ volume_in_range z value).
      { intros Hr. apply volume_in_range_test in Hr. congruence. }
      rewrite (volume_set_out_of_range value z _ Hout).
      split; [discriminate | intros Hr; contradiction].
Qed.

(** ** The commands of a zone (zone.py) *)

(** The calls a user makes to change something on a zone. *)
Inductive ZoneCommand :=
| SetOn (value : bool)
| SetInput (value : string)
| SetDspSoundProgram (value : string)
| SetStraight (value : bool)
| SetVolume (value : Q)
| VolumeUp (step_size : Py.number)
| VolumeDown (step_size : Py.number)
| ActivateScene (scene_id : string)
| Playback (parameter : Constants.Playback).

Definition zone_command (DSP_SOUND_PROGRAMS : list string) (cmd : ZoneCommand) : Py.M (World Zone.Zone) unit :=
  match cmd with
  | SetOn value => Zone.on_set value
  | SetInput value => Zone.input_set value
  | SetDspSoundProgram value => Zone.dsp_sound_program_set DSP_SOUND_PROGRAMS value
  | SetStraight value => Zone.straight_set value
  | SetVolume value => Zone.volume_set value
  | VolumeUp step_size => Zone.volume_up step_size
  | VolumeDown step_size => Zone.volume_down step_size
  | ActivateScene scene_id => Zone.activate_scene scene_id
  | Playback parameter => Zone.playback parameter
  end.

(** X4. No command of a zone changes what the zone has cached: the state
    only follows the events the receiver sends back. A command either
    sends exactly one PUT, addressed to the zone's own id, or raises
    ValueError and sends nothing. *)
Theorem zone_commands_keep_state :
  forall (DSP_SOUND_PROGRAMS : list string) (cmd : ZoneCommand)
         (self : Zone.Zone) (c : YncaConnection),
    (exists function_ value,
        zone_command DSP_SOUND_PROGRAMS cmd (self, c)
        = (Py.Return tt, (self, put (Zone.zone_id self) function_ value c)))
    \/ (exists msg,
        zone_command DSP_SOUND_PROGRAMS cmd (self, c)
        = (Py.Raise (Py.ValueError msg), (self, c))).
Proof.
  intros DSP cmd self c. destruct cmd; cbn [zone_command].
  - left. eexists _, _. reflexivity.
  - left. eexists _, _. reflexivity.
  - unfold Zone.dsp_sound_program_set.
    destruct (existsb (String.eqb value) DSP); [left; eexists _, _ | right; eexists];
      reflexivity.
  - left. eexists _, _. reflexivity.
  - unfold Zone.volume_set. cbn [fst].
    destruct (Qle_bool (Zone.min_volume self) value && Qle_bool value (Zone._max_volume self));
      [left; eexists _, _ | right; eexists]; reflexivity.
  - left. eexists _, _. reflexivity.
  - left. eexists _, _. reflexivity.
  - unfold Zone.activate_scene. cbn [fst].
    destruct (Zone._scenes self !! scene_id); [left; eexists _, _ | right; eexists];
      reflexivity.
  - left. eexists _, _. reflexivity.
Qed.


(** ** Numbered scene names (zone.py, subunits/zone.py) *)

Section NumberedScenes.

Lemma uint_text_digits (d : Decimal.uint) : all_digits (NilEmpty.string_of_uint d) = true.
Proof. induction d; cbn [NilEmpty.string_of_uint all_digits]; try exact IHd; reflexivity. Qed.

Lemma str_int_digits (n : Z) :
  0 <= n -> all_digits (Py.str_int n) = true /\ Py.str_int n <> "".
Proof.
  intros Hn. unfold Py.str_int. destruct n as [|p|p]; [split; [reflexivity|discriminate]| |lia].
  cbn [Z.to_int NilZero.string_of_int]. unfold NilZero.string_of_uint.
  pose proof (uint_text_digits (Pos.to_uint p)) as Hd.
  destruct (Pos.to_uint p); (split; [exact Hd || reflexivity | discriminate]).
Qed.

End NumberedScenes.

(** X6. The scene name functions that subunits/zone.py declares,
    SCENE<n>NAME, are the names the fallback handler of zone.py takes: for
    every n >= 0 the name is matched and its value is stored under the
    decimal text of n. *)
Theorem numbered_scene_names_are_stored :
  forall (n : Z) (status : YncaProtocolStatus) (value : string) (self : Zone.Zone),
    0 <= n ->
    function_name (Subunits_zone.scenename n) = "SCENE" ++ Py.str_int n ++ "NAME"
    /\ Zone.match_scene_name (function_name (Subunits_zone.scenename n))
       = Some (Py.str_int n)
    /\ Zone.scenes
         (snd (Zone.zone_subunit_message_received_without_handler status
                 (function_name (Subunits_zone.scenename n)) value self)) !! Py.str_int n
       = Some value.
Proof.
  intros n status value self Hn. destruct (str_int_digits n Hn) as [Hd Hne].
  assert (Hshape : scene_name_shape (function_name (Subunits_zone.scenename n)) (Py.str_int n)).
  { exists "". split; [|split; assumption].
    cbn [function_name Subunits_zone.scenename Subunits_zone.StrFunction].
    rewrite append_empty_r. reflexivity. }
  apply match_scene_name_spec in Hshape.
  split; [reflexivity|]. split; [exact Hshape|].
  unfold Zone.zone_subunit_message_received_without_handler. rewrite Hshape.
  apply lookup_insert_eq.
Qed.

Lemma numbered_scene_names_are_stored_witness :
  Zone.match_scene_name (function_name (Subunits_zone.scenename 12)) = Some "12".
Proof.
  refine (proj1 (proj2 (numbered_scene_names_are_stored 12 OK "Movie" (Zone.new "MAIN") _))).
  discriminate.
Defined.

(** ** The inputs of the receiver (receiver.py) *)

Section InputsFacts.
Import Receiver.

Variable mappings : Py.Dict.t string.

Lemma internal_input_stays (items : list (string * bool)) (base : Py.Dict.t string)
    (input_id : string) :
  Py.Dict.get input_id base = Some input_id ->
  Py.Dict.get input_id (add_internal_inputs mappings items base) = Some input_id.
Proof.
  revert base. induction items as [|[s available] items IH]; intros base Hb; [exact Hb|].
  cbn [add_internal_inputs fold_left fst snd]. apply IH.
  destruct available; [|exact Hb].
  destruct (Py.Dict.get s mappings) as [other|]; [|exact Hb].
  destruct (String.eqb_spec other input_id) as [->|Hne].
  - apply dict_get_set_eq.
  - rewrite dict_get_set_ne by exact Hne. exact Hb.
Qed.

Lemma internal_input_added (items : list (string * bool)) (base : Py.Dict.t string)
    (subunit_id input_id : string) :
  In (subunit_id, true) items ->
  Py.Dict.get subunit_id mappings = Some input_id ->
  Py.Dict.get input_id (add_internal_inputs mappings items base) = Some input_id.
Proof.
  revert base. induction items as [|[s available] items IH]; intros base Hin Hm; [destruct Hin|].
  cbn [add_internal_inputs fold_left fst snd].
  destruct Hin as [[= -> ->] | Hin].
  - rewrite Hm. apply internal_input_stays, dict_get_set_eq.
  - apply (IH _ Hin Hm).
Qed.

Lemma internal_input_absent (items : list (string * bool)) (base : Py.Dict.t string)
    (input_id : string) :
  (forall subunit_id, In (subunit_id, true) items ->
                      Py.Dict.get subunit_id mappings <> Some input_id) ->
  Py.Dict.get input_id (add_internal_inputs mappings items base)
  = Py.Dict.get input_id base.
Proof.
  revert base. induction items as [|[s available] items IH]; intros base Hnone; [reflexivity|].
  cbn [add_internal_inputs fold_left fst snd].
  etransitivity; [apply IH; intros s' Hin; apply Hnone; right; exact Hin|].
  destruct available; [|reflexivity].
  destruct (Py.Dict.get s mappings) as [other|] eqn:Em; [|reflexivity].
  apply dict_get_set_ne. intros ->. apply (Hnone s); [left; reflexivity | exact Em].
Qed.

End InputsFacts.

(** X7. [inputs] lists an internal input under its own name exactly for
    the subunits recorded as available that the mapping table knows; every
    other name is looked up in the inputs of the system subunit, and is
    absent while there is no system subunit. The property only fails when
    the entry under SYS is not a system subunit. A receiver that was never
    initialized has no inputs. *)
Theorem inputs_follow_available_subunits :
  forall (mappings : Py.Dict.t string)
         (System_inputs : Receiver.System -> Py.Dict.t string)
         (self : Receiver.Receiver),
    match Receiver.inputs mappings System_inputs self with
    | Py.Return inputs =>
        (forall subunit_id input_id,
            Py.Dict.get subunit_id (Receiver._available_subunits self) = Some true ->
            Py.Dict.get subunit_id mappings = Some input_id ->
            Py.Dict.get input_id inputs = Some input_id)
        /\ (forall input_id,
            (forall subunit_id,
                In (subunit_id, true) (Py.Dict.items (Receiver._available_subunits self)) ->
                Py.Dict.get subunit_id mappings <> Some input_id) ->
            Py.Dict.get input_id inputs
            = match Receiver.subunits self !! Constants.SYS with
              | Some (Receiver.SystemObject system) =>
                  Py.Dict.get input_id (System_inputs system)
              | _ => None
              end)
    | Py.Raise _ =>
        exists z, Receiver.subunits self !! Constants.SYS = Some (Receiver.ZoneObject z)
    end
    /\ (forall serial_url,
        Receiver.inputs mappings System_inputs (Receiver.new serial_url) = Py.Return []).
Proof.
  intros mappings System_inputs self. split; [|reflexivity].
  unfold Receiver.inputs.
  destruct (Receiver.subunits self !! Constants.SYS) as [[system | z]|].
  - split.
    + intros s k Hav Hm. apply (internal_input_added mappings _ _ s k); [|exact Hm].
      apply dict_get_items, Hav.
    + intros k Hnone. apply internal_input_absent, Hnone.
  - eexists. reflexivity.
  - split.
    + intros s k Hav Hm. apply (internal_input_added mappings _ _ s k); [|exact Hm].
      apply dict_get_items, Hav.
    + intros k Hnone. rewrite internal_input_absent by exact Hnone. reflexivity.
Qed.

Example inputs_example :
  Receiver.inputs Receiver.SUBUNIT_INPUT_MAPPINGS_by_name (fun _ => [("HDMI1", "HDMI1")])
    (Receiver.set_subunit "SYS" (Receiver.SystemObject Receiver.System_new)
       (Receiver.set_available_subunits
          [("MAIN", true); ("TUN", true); ("NETRADIO", true); ("BT", false)]
          (Receiver.new "")))
  = Py.Return [("HDMI1", "HDMI1"); ("TUNER", "TUNER"); ("NET RADIO", "NET RADIO")].
Proof. vm_compute. reflexivity. Qed.

(** ** More on discovery (receiver.py) *)

Section DiscoveryFacts.
Import Receiver.

(** The events the receiver's callback looks at. *)
Definition relevant (ev : ProtocolEvent) : bool :=
  String.eqb (ev_function ev) "AVAIL" || is_end_marker ev.

Lemma received_irrelevant (ev : ProtocolEvent) (self : Receiver) :
  relevant ev = false -> _protocol_message_received ev self = self.
Proof.
  unfold relevant, _protocol_message_received. intros Hr.
  apply orb_false_iff in Hr as [-> ->]. reflexivity.
Qed.

Lemma deliver_irrelevant (ev : ProtocolEvent) (self : Receiver) :
  relevant ev = false -> deliver ev self = self.
Proof.
  intros Hr. unfold deliver. destruct (_connection self); [|reflexivity].
  destruct (existsb _ _); [apply received_irrelevant, Hr | reflexivity].
Qed.

Lemma wait_skips_irrelevant (timeout : Q) (incoming : list (Q * ProtocolEvent)) (self : Receiver) :
  (forall t ev, In (t, ev) incoming -> relevant ev = false -> (t <= timeout)%Q) ->
  wait timeout incoming self
  = wait timeout (List.filter (fun te => relevant (snd te)) incoming) self.
Proof.
  revert self. induction incoming as [|[t ev] rest IH]; intros self Hin; [reflexivity|].
  assert (Hrest : forall t' ev', In (t', ev') rest -> relevant ev' = false -> (t' <= timeout)%Q)
    by (intros t' ev' H; apply Hin; right; exact H).
  cbn [List.filter snd]. destruct (relevant ev) eqn:Hr.
  - cbn [wait]. destruct (_initialized_event self); [reflexivity|].
    destruct (Qle_bool t timeout); [apply IH, Hrest | reflexivity].
  - cbn [wait]. destruct (_initialized_event self) eqn:Hflag.
    + destruct (List.filter _ rest) as [|[t' ev'] rest']; cbn [wait]; rewrite Hflag; reflexivity.
    + assert (Ht : Qle_bool t timeout = true)
        by (apply Qle_bool_iff, (Hin t ev); [left; reflexivity | exact Hr]).
      rewrite Ht, (deliver_irrelevant ev self Hr). apply IH, Hrest.
Qed.

Lemma unregistered_after_unregister (cb : Callback) (c : YncaConnection) :
  existsb (Callback_eqb cb) (message_callbacks (unregister_message_callback cb c)) = false.
Proof.
  cbn [unregister_message_callback message_callbacks].
  induction (message_callbacks c) as [|cb' cbs IH]; [reflexivity|].
  cbn [List.filter]. destruct (Callback_eqb cb cb') eqn:E; cbn [negb]; [exact IH|].
  cbn [existsb]. rewrite E, IH. reflexivity.
Qed.

End DiscoveryFacts.

(** X8. Discovery starts from nothing: what an earlier run recorded as
    available, and an event flag left set, have no influence on the
    outcome or on the state discovery leaves behind. *)
Theorem discovery_forgets_earlier_results :
  forall (members : list string) (incoming : list (Q * ProtocolEvent))
         (self : Receiver.Receiver) (c : YncaConnection)
         (earlier : Py.Dict.t bool) (flag : bool),
    Receiver._connection self = Some c ->
    Receiver._detect_available_subunits members incoming
      (Receiver.set_available_subunits earlier (Receiver.set_initialized_event flag self))
    = Receiver._detect_available_subunits members incoming self.
Proof.
  intros members incoming self c earlier flag Hc.
  rewrite (detect_unfold members incoming self c Hc).
  rewrite (detect_unfold members incoming
             (Receiver.set_available_subunits earlier
                (Receiver.set_initialized_event flag self)) c Hc).
  reflexivity.
Qed.

Lemma discovery_forgets_earlier_results_witness :
  Receiver._detect_available_subunits example_members example_avails
    (Receiver.set_available_subunits [("ZONE4", true)]
       (Receiver.set_initialized_event true example_receiver))
  = Receiver._detect_available_subunits example_members example_avails example_receiver.
Proof.
  apply (discovery_forgets_earlier_results example_members example_avails example_receiver
           (create_from_serial_url "socket://receiver:50000")).
  reflexivity.
Defined.

(** X9. Whatever arrives, discovery sends each probe and the end marker
    once, and only a successful discovery unregisters the receiver's
    callback: when the wait times out the exception is raised before the
    callback is unregistered, and it stays registered with the session. *)
Theorem discovery_callback_registration :
  forall (members : list string) (incoming : list (Q * ProtocolEvent))
         (self : Receiver.Receiver) (c : YncaConnection),
    Receiver._connection self = Some c ->
    exists c',
      Receiver._connection
        (snd (Receiver._detect_available_subunits members incoming self)) = Some c'
      /\ sent c' = (sent c ++ map probe members ++ [end_marker_probe])%list
      /\ existsb (Callback_eqb ReceiverCallback) (message_callbacks c')
         = match fst (Receiver._detect_available_subunits members incoming self) with
           | Py.Return _ => false
           | Py.Raise _ => true
           end
      /\ (forall e,
          fst (Receiver._detect_available_subunits members incoming self) = Py.Raise e ->
          e = Py.YncaInitializationFailedException "Subunit availability check failed").
Proof.
  intros members incoming self c Hc.
  rewrite (detect_unfold members incoming self c Hc).
  pose proof (wait_frame (scan_timeout members) incoming (scan_start members self c))
    as [Hconn _].
  destruct (scan_connection_facts members c) as (_ & Hsent & Hreg).
  destruct (Receiver.wait (scan_timeout members) incoming (scan_start members self c))
    as [[|] self']; cbn [snd] in Hconn; cbn [Receiver._connection scan_start] in Hconn.
  - unfold Receiver.on_connection. rewrite Hconn. cbn [fst snd Receiver.set_connection
      Receiver._connection].
    eexists. split; [reflexivity|]. split; [exact Hsent|].
    split; [apply unregistered_after_unregister | discriminate].
  - cbn [fst snd]. exists (scan_connection members c).
    split; [exact Hconn|]. split; [exact Hsent|]. split; [exact Hreg|].
    intros e [= <-]. reflexivity.
Qed.

Lemma discovery_callback_registration_witness :
  exists c',
    Receiver._connection
      (snd (Receiver._detect_available_subunits example_members [] example_receiver))
    = Some c'
    /\ existsb (Callback_eqb ReceiverCallback) (message_callbacks c') = true.
Proof.
  destruct (discovery_callback_registration example_members [] example_receiver
              (create_from_serial_url "socket://receiver:50000") eq_refl)
    as (c' & Hc & _ & Hreg & _).
  exists c'. split; [exact Hc | exact Hreg].
Defined.

(** X10. Discovery only looks at AVAIL events and at the SYS VERSION
    event: events about anything else that arrive in time change neither
    its outcome nor the state it leaves. *)
Theorem discovery_ignores_other_events :
  forall (members : list string) (incoming : list (Q * ProtocolEvent))
         (self : Receiver.Receiver) (c : YncaConnection),
    Receiver._connection self = Some c ->
    (forall t ev, In (t, ev) incoming -> relevant ev = false ->
                  (t <= scan_timeout members)%Q) ->
    Receiver._detect_available_subunits members incoming self
    = Receiver._detect_available_subunits members
        (List.filter (fun te => relevant (snd te)) incoming) self.
Proof.
  intros members incoming self c Hc Hin.
  rewrite !(detect_unfold members _ self c Hc).
  rewrite (wait_skips_irrelevant _ incoming _ Hin). reflexivity.
Qed.

Lemma discovery_ignores_other_events_witness :
  Receiver._detect_available_subunits example_members
    ((0.05%Q, {| ev_status := OK; ev_subunit := "MAIN"; ev_function := "VOL";
                 ev_value := "-30.0" |}) :: example_avails)
    example_receiver
  = Receiver._detect_available_subunits example_members example_avails example_receiver.
Proof.
  apply (discovery_ignores_other_events example_members
           ((0.05%Q, {| ev_status := OK; ev_subunit := "MAIN"; ev_function := "VOL";
                        ev_value := "-30.0" |}) :: example_avails)
           example_receiver (create_from_serial_url "socket://receiver:50000") eq_refl).
  intros t ev Hin Hr.
  repeat (destruct Hin as [Hin | Hin];
          [injection Hin as <- <-;
           (discriminate Hr || (apply Qle_bool_iff; reflexivity))|]).
  destruct Hin.
Defined.

(** ** More on creating the subunits (receiver.py) *)

Section CreateFacts.
Import Receiver.

Lemma initialize_available_frame (zones system_functions : list string)
    (self : Receiver) (c : YncaConnection) :
  _connection self = Some c ->
  let self' := snd (_initialize_available_subunits zones system_functions self) in
  fst (_initialize_available_subunits zones system_functions self) = Py.Return tt
  /\ _available_subunits self' = _available_subunits self
  /\ subunits self'
     = add_zones (created_zones zones (_available_subunits self))
         (<[Constants.SYS := SystemObject System_new]> (subunits self))
  /\ exists c', _connection self' = Some c'.
Proof.
  intros Hc. cbn zeta.
  rewrite (initialize_available_unfold zones system_functions self c Hc).
  cbn [fst snd with_zones _available_subunits subunits set_subunit _connection].
  split; [reflexivity|]. split; [reflexivity|]. split; [reflexivity|].
  eexists. reflexivity.
Qed.

Lemma subunits_after_create (ids : list string) (m : gmap string SubunitObject) (k : string) :
  add_zones ids (<[Constants.SYS := SystemObject System_new]> m) !! k
  = if in_dec string_dec k ids then Some (ZoneObject (Zone.new k))
    else if string_dec k Constants.SYS then Some (SystemObject System_new)
    else m !! k.
Proof.
  destruct (in_dec string_dec k ids) as [Hin | Hout].
  - apply add_zones_lookup_in, Hin.
  - rewrite add_zones_lookup_out by exact Hout.
    destruct (string_dec k Constants.SYS) as [-> | Hne].
    + apply lookup_insert_eq.
    + apply lookup_insert_ne. intros E. apply Hne. symmetry. exact E.
Qed.

End CreateFacts.

(** X11. Creating the subunits never removes an entry of [subunits], not
    even one of a subunit that is no longer available; and it creates the
    same entries when it is run again: a second run leaves [subunits] as
    the first run made it. *)
Theorem creating_subunits_keeps_entries :
  forall (zones system_functions : list string) (self : Receiver.Receiver)
         (c : YncaConnection),
    Receiver._connection self = Some c ->
    (forall subunit_id,
        is_Some (Receiver.subunits self !! subunit_id) ->
        is_Some (Receiver.subunits
                   (snd (Receiver._initialize_available_subunits zones system_functions self))
                 !! subunit_id))
    /\ Receiver.subunits
         (snd (Receiver._initialize_available_subunits zones system_functions
                 (snd (Receiver._initialize_available_subunits zones system_functions self))))
       = Receiver.subunits
           (snd (Receiver._initialize_available_subunits zones system_functions self)).
Proof.
  intros zones system_functions self c Hc.
  destruct (initialize_available_frame zones system_functions self c Hc)
    as (_ & Hav & Hsub & c' & Hc').
  cbn zeta in Hav, Hsub, Hc'.
  set (self' := snd (Receiver._initialize_available_subunits zones system_functions self)) in *.
  split.
  - intros k Hk. rewrite Hsub, subunits_after_create.
    destruct (in_dec string_dec k _); [eexists; reflexivity|].
    destruct (string_dec k Constants.SYS); [eexists; reflexivity | exact Hk].
  - destruct (initialize_available_frame zones system_functions self' c' Hc')
      as (_ & _ & Hsub' & _).
    cbn zeta in Hsub'. rewrite Hsub', Hav. apply map_eq. intros k.
    rewrite subunits_after_create, Hsub, subunits_after_create.
    destruct (in_dec string_dec k _); [reflexivity|].
    destruct (string_dec k Constants.SYS); reflexivity.
Qed.

Lemma creating_subunits_keeps_entries_witness :
  is_Some
    (Receiver.subunits
       (snd (Receiver._initialize_available_subunits ["MAIN"; "ZONE2"] []
               (Receiver.set_subunit "ZONE2" (Receiver.ZoneObject (Zone.new "ZONE2"))
                  (Receiver.set_available_subunits [("MAIN", true); ("ZONE2", false)]
                     example_receiver)))) !! "ZONE2").
Proof.
  apply (proj1 (creating_subunits_keeps_entries ["MAIN"; "ZONE2"] []
                  (Receiver.set_subunit "ZONE2" (Receiver.ZoneObject (Zone.new "ZONE2"))
                     (Receiver.set_available_subunits [("MAIN", true); ("ZONE2", false)]
                        example_receiver))
                  (create_from_serial_url "socket://receiver:50000") eq_refl)).
  eexists. apply lookup_insert_eq.
Defined.

(** X12. [initialize] on a new receiver, when the AVAIL events and then
    the SYS VERSION event arrive in time: it returns, the system subunit
    is there, a zone is there exactly when the last AVAIL event about it
    was OK, nothing else is there, and the receiver's callback is no longer
    registered. *)
Theorem initialize_creates_available_zones :
  forall (members zones system_functions : list string) (serial_url : string)
         (avails : list (Q * ProtocolEvent))
         (t_end : Q) (status_end : YncaProtocolStatus) (value_end : string),
    Forall (fun te => ev_function (snd te) = "AVAIL"
                      /\ (fst te <= scan_timeout members)%Q) avails ->
    (t_end <= scan_timeout members)%Q ->
    exists self' c',
      Receiver.initialize members zones system_functions
        (avails ++ [(t_end, {| ev_status := status_end; ev_subunit := Constants.SYS;
                               ev_function := "VERSION"; ev_value := value_end |})])
        (Receiver.new serial_url)
      = (Py.Return tt, self')
      /\ is_Some (Receiver.subunits self' !! Constants.SYS)
      /\ (forall subunit_id,
          subunit_id <> Constants.SYS ->
          (is_Some (Receiver.subunits self' !! subunit_id)
           <-> In subunit_id zones
               /\ last_status subunit_id (map snd avails) = Some OK))
      /\ Receiver._connection self' = Some c'
      /\ existsb (Callback_eqb ReceiverCallback) (message_callbacks c') = false.
Proof.
  intros members zones system_functions serial_url avails t_end status_end value_end
         Hav Hend.
  set (ev_end := {| ev_status := status_end; ev_subunit := Constants.SYS;
                    ev_function := "VERSION"; ev_value := value_end |}).
  set (c0 := create_from_serial_url serial_url).
  set (start := Receiver.set_connection (Some c0) (Receiver.new serial_url)).
  set (found := Receiver.set_connection
                  (Some (unregister_message_callback ReceiverCallback
                           (scan_connection members c0)))
                  (Receiver._protocol_message_received ev_end
                     (record_all (map snd avails) (scan_start members start c0)))).
  assert (Hdetect : Receiver._detect_available_subunits members
                      (avails ++ [(t_end, ev_end)]) start = (Py.Return tt, found))
    by (apply (detect_released members start c0 avails t_end ev_end eq_refl Hav Hend);
        reflexivity).
  assert (Hfun : Forall (fun ev => ev_function ev = "AVAIL") (map snd avails)).
  { apply List.Forall_map. eapply List.Forall_impl; [|exact Hav]. intros te [Hf _]. exact Hf. }
  assert (Havail : Receiver._available_subunits found
                   = Receiver._available_subunits
                       (record_all (map snd avails) (scan_start members start c0))).
  { unfold found. cbn [Receiver.set_connection Receiver._available_subunits].
    rewrite received_available. reflexivity. }
  assert (Hnd : List.NoDup (Py.Dict.keys (Receiver._available_subunits found))).
  { rewrite Havail. apply record_all_NoDup. constructor. }
  assert (Hsubs : Receiver.subunits found = ∅).
  { unfold found. cbn [Receiver.set_connection Receiver.subunits].
    destruct (received_frame ev_end (record_all (map snd avails) (scan_start members start c0)))
      as (_ & -> & _).
    assert (H : forall evs s0, Receiver.subunits (record_all evs s0)
                               = Receiver.subunits s0).
    { induction evs as [|ev evs IH]; intros s0; [reflexivity|].
      cbn [record_all fold_left]. fold (record_all evs (Receiver._protocol_message_received ev s0)).
      rewrite IH. apply received_frame. }
    rewrite H. reflexivity. }
  destruct (initialize_available_frame zones system_functions found _ eq_refl)
    as (Hret & _ & Hsub & _).
  cbn zeta in Hsub.
  pose proof (initialize_available_unfold zones system_functions found _ eq_refl) as Hrun.
  eexists. eexists. split.
  { transitivity
      (match Receiver._detect_available_subunits members (avails ++ [(t_end, ev_end)]) start
       with
       | (Py.Return _, s') =>
           Receiver._initialize_available_subunits zones system_functions s'
       | (Py.Raise e, s') => (Py.Raise e, s')
       end); [reflexivity|].
    rewrite Hdetect. exact Hrun. }
  cbn [with_zones Receiver.subunits Receiver.set_subunit Receiver._connection].
  split; [|split; [|split]].
  - rewrite subunits_after_create. destruct (in_dec string_dec _ _); [eexists; reflexivity|].
    destruct (string_dec _ _) as [_ | Hne]; [eexists; reflexivity | contradiction].
  - intros k Hk. rewrite subunits_after_create.
    assert (Hcreated : In k (created_zones zones (Receiver._available_subunits found))
                       <-> In k zones /\ last_status k (map snd avails) = Some OK).
    { rewrite created_zones_In, <- (dict_get_In _ _ _ Hnd), Havail.
      rewrite (record_all_available _ _ k Hfun). cbn [scan_start Receiver._available_subunits].
      destruct (last_status k (map snd avails)) as [[]|]; cbn; intuition congruence. }
    destruct (in_dec string_dec k _) as [Hin | Hout].
    + split; [intros _; apply Hcreated, Hin | intros _; eexists; reflexivity].
    + destruct (string_dec k Constants.SYS) as [E | _]; [contradiction|].
      rewrite Hsubs, lookup_empty. split.
      * intros [x Hx]. discriminate Hx.
      * intros H. exfalso. apply Hout, Hcreated, H.
  - reflexivity.
  - assert (Hkeep : forall cmds c1, message_callbacks (transmit_all cmds c1) = message_callbacks c1).
    { induction cmds as [|cmd cmds IH]; intros c1; [reflexivity|].
      cbn [transmit_all fold_left]. fold (transmit_all cmds (transmit cmd c1)).
      rewrite IH. reflexivity. }
    rewrite !Hkeep. apply unregistered_after_unregister.
Qed.

Lemma initialize_creates_available_zones_witness :
  exists self',
    Receiver.initialize example_members ["MAIN"; "ZONE2"; "ZONE3"; "ZONE4"] []
      (example_avails
         ++ [(0.4%Q, {| ev_status := OK; ev_subunit := Constants.SYS;
                        ev_function := "VERSION"; ev_value := "1.80/2.01" |})])
      (Receiver.new "socket://receiver:50000")
    = (Py.Return tt, self')
    /\ is_Some (Receiver.subunits self' !! Constants.SYS).
Proof.
  destruct (initialize_creates_available_zones example_members
              ["MAIN"; "ZONE2"; "ZONE3"; "ZONE4"] [] "socket://receiver:50000"
              example_avails 0.4%Q OK "1.80/2.01")
    as (self' & c' & Hrun & Hsys & _).
  - repeat constructor; apply Qle_bool_iff; reflexivity.
  - apply Qle_bool_iff. reflexivity.
  - exists self'. split; [exact Hrun | exact Hsys].
Defined.

(** ** What the scenes dictionary can hold (zone.py) *)

Section SceneKeys.

Definition scene_keys_are_numbers (self : Zone.Zone) : Prop :=
  forall scene_id,
    is_Some (Zone.scenes self !! scene_id) ->
    all_digits scene_id = true /\ scene_id <> "".

Lemma zone_store_keeps_scenes (function_ value : string)
    (store : string -> Zone.Zone -> option Zone.Zone) (z z' : Zone.Zone) :
  Zone.zone_binding function_ = Some store ->
  store value z = Some z' ->
  Zone._scenes z' = Zone._scenes z /\ Zone.zone_id z' = Zone.zone_id z.
Proof.
  intros Hb Hs. unfold Zone.zone_binding in Hb.
  destruct (String.eqb function_ "VOL").
  { injection Hb as <-. unfold Zone._handle_vol in Hs.
    destruct (Py.float value); [injection Hs as <-; split; reflexivity | discriminate]. }
  destruct (String.eqb function_ "MAXVOL").
  { injection Hb as <-. unfold Zone._handle_maxvol in Hs.
    destruct (Py.float value); [injection Hs as <-; split; reflexivity | discriminate]. }
  destruct (existsb (String.eqb function_) Zone.attr_functions); [|discriminate].
  injection Hb as <-. injection Hs as <-. split; reflexivity.
Qed.

Lemma zone_step_scene_keys (ev : ProtocolEvent) (z : Zone.Zone) :
  scene_keys_are_numbers z ->
  scene_keys_are_numbers (fst (_protocol_message_received ev z))
  /\ Zone.zone_id (fst (_protocol_message_received ev z)) = Zone.zone_id z.
Proof.
  intros Hz. unfold _protocol_message_received.
  cbn [id binding Zone.Zone_class _subunit_message_received_without_handler].
  destruct (negb _); [split; [exact Hz | reflexivity]|].
  destruct (Zone.zone_binding (ev_function ev)) as [store|] eqn:Hb.
  - destruct (is_OK (ev_status ev)); [|split; [exact Hz | reflexivity]].
    destruct (store (ev_value ev) z) as [z'|] eqn:Hs; [|split; [exact Hz | reflexivity]].
    destruct (zone_store_keeps_scenes _ _ store z z' Hb Hs) as [Hsc Hid].
    cbn [fst]. split; [|exact Hid].
    intros k Hk. apply Hz. unfold Zone.scenes in *. rewrite <- Hsc. exact Hk.
  - unfold Zone.zone_subunit_message_received_without_handler.
    destruct (Zone.match_scene_name (ev_function ev)) as [scene_id|] eqn:Hm;
      cbn [fst]; [|split; [exact Hz | reflexivity]].
    split; [|reflexivity].
    apply match_scene_name_spec in Hm as (rest & _ & Hne & Hd).
    intros k Hk. unfold Zone.scenes in Hk. cbn [Zone.set_scenes Zone._scenes] in Hk.
    destruct (string_dec scene_id k) as [<- | Hother].
    + split; assumption.
    + rewrite lookup_insert_ne in Hk by exact Hother. apply Hz, Hk.
Qed.

End SceneKeys.

(** X13. Whatever events a zone is sent, in whatever order and with
    whatever status, the keys of its scenes dictionary are non-empty
    strings of decimal digits, and the zone keeps its id. So
    [activate_scene] can only ever succeed for such a string. *)
Theorem scene_keys_stay_numbers :
  forall (evs : list ProtocolEvent) (subunit_id : string),
    (forall scene_id,
        is_Some (Zone.scenes (dispatch_all evs (Zone.new subunit_id)) !! scene_id) ->
        all_digits scene_id = true /\ scene_id <> "")
    /\ Zone.zone_id (dispatch_all evs (Zone.new subunit_id)) = subunit_id
    /\ (forall scene_id c,
        fst (Zone.activate_scene scene_id (dispatch_all evs (Zone.new subunit_id), c))
        = Py.Return tt ->
        all_digits scene_id = true /\ scene_id <> "").
Proof.
  intros evs subunit_id.
  assert (Hinv : forall evs z,
    scene_keys_are_numbers z ->
    scene_keys_are_numbers (dispatch_all evs z)
    /\ Zone.zone_id (dispatch_all evs z) = Zone.zone_id z).
  { clear. induction evs as [|ev evs IH]; intros z Hz; [split; [exact Hz | reflexivity]|].
    unfold dispatch_all. cbn [fold_left].
    fold (dispatch_all evs (fst (_protocol_message_received ev z))).
    destruct (zone_step_scene_keys ev z Hz) as [Hz' Hid].
    destruct (IH _ Hz') as [Hk Hid']. split; [exact Hk | congruence]. }
  assert (Hnew : scene_keys_are_numbers (Zone.new subunit_id)).
  { intros k [x Hx]. unfold Zone.scenes in Hx. cbn in Hx. rewrite lookup_empty in Hx.
    discriminate Hx. }
  destruct (Hinv evs _ Hnew) as [Hkeys Hid].
  split; [exact Hkeys|]. split; [exact Hid|].
  intros scene_id c Hret. apply Hkeys. unfold Zone.scenes.
  destruct (Zone._scenes (dispatch_all evs (Zone.new subunit_id)) !! scene_id) as [text|] eqn:E;
    [eexists; reflexivity|].
  rewrite (activate_scene_unknown scene_id _ c E) in Hret. discriminate Hret.
Qed.
